(** * CivitAI downloader: a model of [civitai_downloader/cli.py]

    The command line tool resolves a model identifier to a download URL,
    follows one redirect by hand to learn the file name, and streams the
    file to disk, resuming a partial file with a [Range] request.

    A Python [str] is modelled as the [string] that holds its UTF-8
    encoding (so every [string] that stands for a text is well-formed
    UTF-8, and a character outside ASCII takes two to four bytes, all of
    them above 127); Python [bytes] are a [list byte], a Python [int] is
    a [Z].  The file system is a finite map from paths to file contents,
    the token file among them; a file has one path (no links, no two
    spellings of one path), and paths are joined and written as on a
    POSIX system.  The network, the clock and the terminal are outside
    the program: the network is a pair of functions of the request, what
    is written to the terminal is recorded in a log.

    Left out: the wall clock and the throughput derived from it (floating
    point), the parsing of the command line, the end of input at the
    prompt, and failures of the file system calls ([os.makedirs],
    [mkdir], [open] and [write] succeed; a path names a regular file or
    nothing).  Every branch, exception and state change of the program's
    own code is kept. *)

From Stdlib Require Import ZArith Ascii String List Lia.
From stdpp Require Import base option strings gmap list pretty.

Local Open Scope string_scope.
Local Open Scope Z_scope.

(** ** Constants of the module *)

Definition CHUNK_SIZE : N := 1638400.

Definition USER_AGENT : string :=
  "Mozilla/5.0 (Windows NT 10.0; Win64; x64) AppleWebKit/537.36 (KHTML, like Gecko) Chrome/58.0.3029.110 Safari/537.3".

Definition BASE_URL : string := "https://civitai.com/api/download/models/".

(** ** The string methods the program calls *)

Module Str.

Definition is_ascii_digit (c : ascii) : bool :=
  let n := nat_of_ascii c in (48 <=? n)%nat && (n <=? 57)%nat.

Definition is_ascii_alpha (c : ascii) : bool :=
  let n := nat_of_ascii c in
  ((65 <=? n)%nat && (n <=? 90)%nat) || ((97 <=? n)%nat && (n <=? 122)%nat).

Fixpoint all_chars (p : ascii -> bool) (s : string) : bool :=
  match s with
  | EmptyString => true
  | String c s' => p c && all_chars p s'
  end.

(** [s.isdigit()]: at least one character, and all of them digits.  On
    the byte model the digits are the ASCII ones. *)
Definition isdigit (s : string) : bool :=
  match s with
  | EmptyString => false
  | _ => all_chars is_ascii_digit s
  end.

(** [s.startswith(p)] *)
Fixpoint startswith (s p : string) {struct p} : bool :=
  match p, s with
  | EmptyString, _ => true
  | String a p', String b s' => if Ascii.eqb a b then startswith s' p' else false
  | String _ _, EmptyString => false
  end.

(** [s.endswith(p)] for a one-character [p]. *)
Fixpoint endswith_char (s : string) (c : ascii) : bool :=
  match s with
  | EmptyString => false
  | String a EmptyString => Ascii.eqb a c
  | String _ s' => endswith_char s' c
  end.

Fixpoint drop (n : nat) (s : string) : string :=
  match n, s with
  | O, _ => s
  | S n', String _ s' => drop n' s'
  | S _, EmptyString => EmptyString
  end.

(** The first occurrence of [sep] in [s]: the text before it and the
    text after it. *)
Fixpoint split_once (sep s : string) : option (string * string) :=
  if startswith s sep then Some (EmptyString, drop (String.length sep) s)
  else match s with
       | EmptyString => None
       | String c s' =>
           match split_once sep s' with
           | Some (a, b) => Some (String c a, b)
           | None => None
           end
       end.

Fixpoint split_fuel (fuel : nat) (sep s : string) : list string :=
  match fuel with
  | O => [s]
  | S fuel' =>
      match split_once sep s with
      | None => [s]
      | Some (a, b) => a :: split_fuel fuel' sep b
      end
  end.

(** [s.split(sep)] for a non-empty [sep]: the pieces between the
    successive occurrences of [sep], scanned from the left.  Each cut
    removes at least one character, so the length of [s] bounds the
    number of cuts. *)
Definition split (s sep : string) : list string :=
  split_fuel (String.length s) sep s.

(** [s.split(sep, 1)] *)
Definition split1 (s sep : string) : list string :=
  match split_once sep s with
  | None => [s]
  | Some (a, b) => [a; b]
  end.

Fixpoint lstrip_char (c : ascii) (s : string) : string :=
  match s with
  | String a s' => if Ascii.eqb a c then lstrip_char c s' else s
  | EmptyString => EmptyString
  end.

Fixpoint rstrip_char (c : ascii) (s : string) : string :=
  match s with
  | EmptyString => EmptyString
  | String a s' =>
      match rstrip_char c s' with
      | EmptyString => if Ascii.eqb a c then EmptyString else String a EmptyString
      | r => String a r
      end
  end.

(** [s.strip(c)] for a one-character set: remove every leading and every
    trailing [c]. *)
Definition strip_char (s : string) (c : ascii) : string :=
  rstrip_char c (lstrip_char c s).

(** [s.replace(a, b)] for single characters. *)
Fixpoint replace_char (a b : ascii) (s : string) : string :=
  match s with
  | EmptyString => EmptyString
  | String c s' => String (if Ascii.eqb c a then b else c) (replace_char a b s')
  end.

Fixpoint remove_chars (p : ascii -> bool) (s : string) : string :=
  match s with
  | EmptyString => EmptyString
  | String c s' => if p c then remove_chars p s' else String c (remove_chars p s')
  end.

(** Truth value of a string: the empty string is false. *)
Definition truthy (s : string) : bool :=
  match s with EmptyString => false | _ => true end.

End Str.

(** ** [normalize_url] *)

Definition normalize_url (url_or_id : string) : string :=
  if Str.isdigit url_or_id then BASE_URL +:+ url_or_id
  else if Str.startswith url_or_id "http" then url_or_id
  else BASE_URL +:+ url_or_id.

(** What the specification calls a string "beginning with a scheme": a
    letter, then letters, digits, [+], [-] or [.], then a colon
    (RFC 3986, section 3.1). *)
Definition is_scheme_char (c : ascii) : bool :=
  Str.is_ascii_alpha c || Str.is_ascii_digit c
  || Ascii.eqb c "+" || Ascii.eqb c "-" || Ascii.eqb c ".".

Fixpoint scheme_rest (s : string) : bool :=
  match s with
  | EmptyString => false
  | String c s' =>
      if Ascii.eqb c ":" then true
      else if is_scheme_char c then scheme_rest s' else false
  end.

Definition begins_with_scheme (s : string) : bool :=
  match s with
  | EmptyString => false
  | String c s' => Str.is_ascii_alpha c && scheme_rest s'
  end.

(** ** UTF-8, as Python's codec reads it

    A byte below 128 is a character; a lead byte from 194 to 244 opens a
    sequence of two to four bytes, whose further bytes are continuation
    bytes (128 to 191); the second byte is narrowed after the leads 224,
    237, 240 and 244, which excludes overlong forms, surrogates and
    values above U+10FFFF.  The codec stops at the first byte that cannot
    go on a sequence and reports the bytes before it, from the lead on,
    as one error; a sequence cut short by the end of the data is one
    error as well. *)

Module Utf8.

Definition code (c : ascii) : N := N_of_ascii c.

Definition is_ascii (c : ascii) : bool := (code c <? 128)%N.

Definition is_continuation (c : ascii) : bool :=
  ((128 <=? code c) && (code c <=? 191))%N.

Definition second_ok (lead b : ascii) : bool :=
  is_continuation b
  && (if (code lead =? 224)%N then (160 <=? code b)%N
      else if (code lead =? 237)%N then (code b <? 160)%N
      else if (code lead =? 240)%N then (144 <=? code b)%N
      else if (code lead =? 244)%N then (code b <? 144)%N
      else true).

Definition INVALID_START : string := "invalid start byte".
Definition INVALID_CONTINUATION : string := "invalid continuation byte".
Definition UNEXPECTED_END : string := "unexpected end of data".

(** What the codec finds, from left to right: a character with its
    bytes, or an error with its first byte, the number of bytes it covers
    and the reason the codec gives. *)
Inductive piece : Type :=
| Good (bytes : string)
| Bad (first : ascii) (len : nat) (reason : string).

Fixpoint scan (s : string) : list piece :=
  match s with
  | EmptyString => []
  | String a r1 =>
      if (code a <? 128)%N then Good (String a EmptyString) :: scan r1
      else if (code a <? 194)%N then Bad a 1 INVALID_START :: scan r1
      else if (code a <? 224)%N then
        match r1 with
        | EmptyString => [Bad a 1 UNEXPECTED_END]
        | String b r2 =>
            if is_continuation b
            then Good (String a (String b EmptyString)) :: scan r2
            else Bad a 1 INVALID_CONTINUATION :: scan r1
        end
      else if (code a <? 240)%N then
        match r1 with
        | EmptyString => [Bad a 1 UNEXPECTED_END]
        | String b r2 =>
            if second_ok a b then
              match r2 with
              | EmptyString => [Bad a 2 UNEXPECTED_END]
              | String c r3 =>
                  if is_continuation c
                  then Good (String a (String b (String c EmptyString))) :: scan r3
                  else Bad a 2 INVALID_CONTINUATION :: scan r2
              end
            else Bad a 1 INVALID_CONTINUATION :: scan r1
        end
      else if (code a <? 245)%N then
        match r1 with
        | EmptyString => [Bad a 1 UNEXPECTED_END]
        | String b r2 =>
            if second_ok a b then
              match r2 with
              | EmptyString => [Bad a 2 UNEXPECTED_END]
              | String c r3 =>
                  if is_continuation c then
                    match r3 with
                    | EmptyString => [Bad a 3 UNEXPECTED_END]
                    | String d r4 =>
                        if is_continuation d
                        then Good (String a (String b (String c (String d EmptyString))))
                             :: scan r4
                        else Bad a 3 INVALID_CONTINUATION :: scan r3
                    end
                  else Bad a 2 INVALID_CONTINUATION :: scan r2
              end
            else Bad a 1 INVALID_CONTINUATION :: scan r1
        end
      else Bad a 1 INVALID_START :: scan r1
  end.

Definition hex_digit (n : N) : ascii :=
  ascii_of_N (if (n <? 10)%N then 48 + n else 87 + n).

(** [str(e)] for the [UnicodeDecodeError] of an error at [pos]. *)
Definition error_text (first : ascii) (pos : N) (len : nat) (reason : string) : string :=
  match len with
  | 1%nat =>
      "'utf-8' codec can't decode byte 0x"
      +:+ String (hex_digit (code first / 16)) (String (hex_digit (code first mod 16)) "")
      +:+ " in position " +:+ pretty pos +:+ ": " +:+ reason
  | _ =>
      "'utf-8' codec can't decode bytes in position " +:+ pretty pos
      +:+ "-" +:+ pretty (pos + N.of_nat len - 1)%N +:+ ": " +:+ reason
  end.

Fixpoint first_error (pos : N) (pieces : list piece) : option string :=
  match pieces with
  | [] => None
  | Good bytes :: rest => first_error (pos + N.of_nat (String.length bytes)) rest
  | Bad first len reason :: _ => Some (error_text first pos len reason)
  end.

(** A [string] that stands for a text. *)
Definition well_formed (s : string) : bool :=
  match first_error 0 (scan s) with
  | None => true
  | Some _ => false
  end.

(** [data.decode('utf-8')]: the text, or the message of the
    [UnicodeDecodeError]. *)
Definition decode (data : list Byte.byte) : string + string :=
  let s := string_of_list_byte data in
  match first_error 0 (scan s) with
  | Some msg => inl msg
  | None => inr s
  end.

(** U+FFFD, the replacement character. *)
Definition REPLACEMENT : string := String "239" (String "191" (String "189" EmptyString)).

(** [data.decode('utf-8', 'replace')]: every error becomes one U+FFFD. *)
Fixpoint replaced (pieces : list piece) : string :=
  match pieces with
  | [] => EmptyString
  | Good bytes :: rest => bytes +:+ replaced rest
  | Bad _ _ _ :: rest => REPLACEMENT +:+ replaced rest
  end.

Definition decode_replace (s : string) : string := replaced (scan s).

End Utf8.

(** ** [urllib.parse]: the three functions the resolver calls *)

Module Url.

Definition hex_value (c : ascii) : option N :=
  let n := N_of_ascii c in
  if ((48 <=? n) && (n <=? 57))%N then Some (n - 48)%N
  else if ((65 <=? n) && (n <=? 70))%N then Some (n - 55)%N
  else if ((97 <=? n) && (n <=? 102))%N then Some (n - 87)%N
  else None.

(** [unquote_to_bytes]: every [%XY] with two hexadecimal digits becomes
    the byte it names; a [%] not followed by two hexadecimal digits
    stays. *)
Fixpoint unquote_to_bytes (s : string) : string :=
  match s with
  | EmptyString => EmptyString
  | String c s' =>
      if Ascii.eqb c "%" then
        match s' with
        | String h (String l rest) =>
            match hex_value h, hex_value l with
            | Some a, Some b => String (ascii_of_N (16 * a + b)) (unquote_to_bytes rest)
            | _, _ => String c (unquote_to_bytes s')
            end
        | _ => String c (unquote_to_bytes s')
        end
      else String c (unquote_to_bytes s')
  end.

Fixpoint contains_char (c : ascii) (s : string) : bool :=
  match s with
  | EmptyString => false
  | String a s' => Ascii.eqb a c || contains_char c s'
  end.

(** The runs of ASCII characters of [s] are unquoted, each on its own,
    and the bytes read as UTF-8 with U+FFFD for what is malformed; the
    characters outside ASCII between them stay.  [run] is the ASCII run
    read so far. *)
Fixpoint unquote_runs (s run : string) : string :=
  match s with
  | EmptyString => Utf8.decode_replace (unquote_to_bytes run)
  | String c s' =>
      if Utf8.is_ascii c then unquote_runs s' (run +:+ String c EmptyString)
      else Utf8.decode_replace (unquote_to_bytes run)
           +:+ String c (unquote_runs s' EmptyString)
  end.

(** [unquote(s)], with its defaults [encoding='utf-8'] and
    [errors='replace']. *)
Definition unquote (s : string) : string :=
  if contains_char "%" s then unquote_runs s EmptyString else s.

(** One [name=value] field of a query string, as [parse_qsl] treats it
    with its default arguments: a field without [=] or with an empty
    value is dropped; [+] is a space; both sides are unquoted. *)
Definition parse_field (name_value : string) : list (string * string) :=
  match Str.split1 name_value "=" with
  | [name; value] =>
      if Str.truthy value
      then [(unquote (Str.replace_char "+" " " name),
             unquote (Str.replace_char "+" " " value))]
      else []
  | _ => []
  end.

(** [parse_qsl]: the fields are separated by [&]. *)
Definition parse_qsl (qs : string) : list (string * string) :=
  flat_map parse_field (Str.split qs "&").

(** [parse_qs(qs).get(key, [None])[0]]: [parse_qs] groups the values of
    [parse_qsl] by name, in order, so the first value of the list for
    [key] is the value of the first field of that name. *)
Fixpoint first_value (key : string) (fields : list (string * string)) : option string :=
  match fields with
  | [] => None
  | (name, value) :: rest =>
      if String.eqb name key then Some value else first_value key rest
  end.

Definition is_tab_or_newline (c : ascii) : bool :=
  Ascii.eqb c "009" || Ascii.eqb c "010" || Ascii.eqb c "013".

(** [urlparse(url).query]: tabs and newlines are removed from the URL,
    the fragment is cut at the first [#], and the query is what follows
    the first [?] of the rest.  (The scheme and the authority, which
    [urlparse] splits off first, contain neither character.) *)
Definition query (url : string) : string :=
  let url := Str.remove_chars is_tab_or_newline url in
  let url := match Str.split_once "#" url with
             | Some (before, _) => before
             | None => url
             end in
  match Str.split_once "?" url with
  | Some (_, q) => q
  | None => EmptyString
  end.

End Url.

(** ** [os.path.join] (POSIX) for two components *)

Definition path_join (a b : string) : string :=
  if Str.startswith b "/" then b
  else if negb (Str.truthy a) || Str.endswith_char a "/" then a +:+ b
  else a +:+ "/" +:+ b.

(** ** [int(s)] on a header value

    [int] takes white space outside ASCII for a space, removes the
    surrounding white space, accepts one sign, and then wants decimal
    digits, where single underscores may stand between digits; more
    than 4300 digits are refused (the default of
    [sys.int_max_str_digits]).  A header value comes out of an
    ISO-8859-1 decoding, so its characters are below U+0100, where the
    decimal digits are the ASCII ones: the digits of other scripts,
    which [int] reads as well, are not modelled. *)

Module PyInt.

(** White space among the ASCII characters: tab, newline, vertical tab,
    form feed, carriage return and space. *)
Definition is_space (c : ascii) : bool :=
  let n := N_of_ascii c in
  (((9 <=? n) && (n <=? 13)) || (n =? 32))%N.

(** White space outside ASCII, by its UTF-8 bytes: U+0085 and U+00A0;
    U+1680, U+2000 to U+200A, U+2028, U+2029, U+202F, U+205F and
    U+3000. *)
Definition is_space2 (a b : ascii) : bool :=
  let '(a, b) := (N_of_ascii a, N_of_ascii b) in
  ((a =? 194) && ((b =? 133) || (b =? 160)))%N.

Definition is_space3 (a b c : ascii) : bool :=
  let '(a, b, c) := (N_of_ascii a, N_of_ascii b, N_of_ascii c) in
  (((a =? 225) && (b =? 154) && (c =? 128))
   || ((a =? 226) && (b =? 128)
       && (((128 <=? c) && (c <=? 138)) || (c =? 168) || (c =? 169) || (c =? 175)))
   || ((a =? 226) && (b =? 129) && (c =? 159))
   || ((a =? 227) && (b =? 128) && (c =? 128)))%N.

Fixpoint spaces_to_ascii (s : string) : string :=
  match s with
  | EmptyString => EmptyString
  | String a s1 =>
      match s1 with
      | EmptyString => s
      | String b s2 =>
          if is_space2 a b then String " " (spaces_to_ascii s2)
          else
            match s2 with
            | EmptyString => String a (spaces_to_ascii s1)
            | String c s3 =>
                if is_space3 a b c then String " " (spaces_to_ascii s3)
                else String a (spaces_to_ascii s1)
            end
      end
  end.

Fixpoint lstrip (s : string) : string :=
  match s with
  | String c s' => if is_space c then lstrip s' else s
  | EmptyString => EmptyString
  end.

Fixpoint rstrip (s : string) : string :=
  match s with
  | EmptyString => EmptyString
  | String c s' =>
      match rstrip s' with
      | EmptyString => if is_space c then EmptyString else String c EmptyString
      | r => String c r
      end
  end.

Fixpoint digits (s : string) (acc : Z) (after_digit : bool) : option Z :=
  match s with
  | EmptyString => if after_digit then Some acc else None
  | String c s' =>
      if Str.is_ascii_digit c
      then digits s' (10 * acc + (Z.of_N (N_of_ascii c) - 48)) true
      else if Ascii.eqb c "_" && after_digit then digits s' acc false
      else None
  end.

Fixpoint count_digits (s : string) : nat :=
  match s with
  | EmptyString => 0%nat
  | String c s' =>
      if Str.is_ascii_digit c then S (count_digits s') else count_digits s'
  end.

Definition MAX_STR_DIGITS : nat := 4300.

(** [None] stands for the [ValueError] that [int] raises. *)
Definition int (s : string) : option Z :=
  let text := rstrip (lstrip (spaces_to_ascii s)) in
  let value :=
    match text with
    | String "-" s' => Z.opp <$> digits s' 0 false
    | String "+" s' => digits s' 0 false
    | s' => digits s' 0 false
    end in
  if (MAX_STR_DIGITS <? count_digits text)%nat then None else value.

End PyInt.

(** The double quote character. *)
Definition DQUOTE : ascii := "034"%char.

(** ** Exceptions *)

Inductive exn : Type :=
| ValueError (msg : string)
| UnicodeDecodeError (msg : string)   (* a ValueError *)
| FileNotFoundError (msg : string)
| RuntimeError (msg : string)
| OSError (msg : string)
| URLError (msg : string)             (* HTTPError is a URLError *)
| IndexError (msg : string)
| ZeroDivisionError (msg : string)
| HTTPException (msg : string).

(** [str(e)] *)
Definition message (e : exn) : string :=
  match e with
  | ValueError m | UnicodeDecodeError m | FileNotFoundError m | RuntimeError m
  | OSError m | URLError m | IndexError m | ZeroDivisionError m
  | HTTPException m => m
  end.

(** The clause [except (ValueError, FileNotFoundError, RuntimeError,
    IOError, urllib.error.URLError)] of [main]; [IOError] is [OSError]. *)
Definition caught_by_main (e : exn) : bool :=
  match e with
  | ValueError _ | UnicodeDecodeError _ | FileNotFoundError _ | RuntimeError _
  | OSError _ | URLError _ => true
  | IndexError _ | ZeroDivisionError _ | HTTPException _ => false
  end.

(** ** Requests, responses, files and the terminal *)

Record request : Type := Request {
  req_url : string;
  req_headers : list (string * string);
}.

(** A response as the program uses it: its status, [getheader], and the
    body, which [read] delivers piece by piece; [body_error], when set, is
    the exception [read] raises once the bytes of [body] are delivered (a
    connection that breaks), instead of reporting the end of the stream. *)
Record response : Type := Response {
  status : Z;
  getheader : string -> option string;
  body : list Byte.byte;
  body_error : option exn;
}.

Inductive file_mode : Type := ab | wb.

Inductive output : Type :=
| OutFound (resume_byte_pos : Z)
    (* 'Found existing file, resuming from ... MB' *)
| OutLine (text : string)
| OutProgress (filename : string) (downloaded total_size : Z)
    (* '\rDownloading: <filename> [<downloaded / total_size>%] - <speed> MB/s' *)
| OutNewline
| OutElapsed.
    (* 'Downloaded in <time>' *)

Inductive event : Type :=
| EvOpen (r : request)        (* opener.open(request): redirects are not followed *)
| EvUrlopen (r : request)     (* urllib.request.urlopen *)
| EvGetHeader (name : string)
| EvMakedirs (path : string)
| EvFileOpen (path : string) (mode : file_mode)
| EvWrite (path : string) (data : list Byte.byte)
| EvInput (prompt : string)
| EvOut (o : output).

(** The mutable world: the files by path, each with the bytes it holds,
    and what has happened so far on the network, on the terminal and to
    the output file (latest last). *)
Record world : Type := World {
  w_files : gmap string (list Byte.byte);
  w_log : list event;
}.

(** ** The monad of the program: state and exceptions *)

Definition M (A : Type) : Type := world -> (exn + A) * world.

#[global] Instance M_ret : MRet M := fun A x w => (inr x, w).

#[global] Instance M_bind : MBind M := fun A B f m w =>
  match m w with
  | (inr x, w') => f x w'
  | (inl e, w') => (inl e, w')
  end.

Definition raise {A} (e : exn) : M A := fun w => (inl e, w).

Definition log_event (ev : event) (w : world) : world :=
  {| w_files := w_files w; w_log := w_log w ++ [ev] |}.

Definition emit (ev : event) : M unit := fun w => (inr tt, log_event ev w).

Definition get_files : M (gmap string (list Byte.byte)) := fun w => (inr (w_files w), w).

Definition put_files (fs : gmap string (list Byte.byte)) : M unit := fun w =>
  (inr tt, {| w_files := fs; w_log := w_log w |}).

Definition print (text : string) : M unit := emit (EvOut (OutLine text)).

(** [try: body except <the classes of main> as e: handler(e)] *)
Definition try_except {A} (body : M A) (handler : exn -> M A) : M A := fun w =>
  match body w with
  | (inl e, w') => if caught_by_main e then handler e w' else (inl e, w')
  | r => r
  end.

(** ** The file operations *)

(** [os.path.exists] and [os.path.getsize] *)
Definition path_exists (path : string) : M bool :=
  fs ← get_files; mret (bool_decide (is_Some (fs !! path))).

Definition getsize (path : string) : M Z :=
  fs ← get_files; mret (Z.of_nat (length (default [] (fs !! path)))).

(** [open(path, mode)]: [wb] truncates or creates; [ab] creates a missing
    file and keeps an existing one. *)
Definition file_open (path : string) (mode : file_mode) : M unit :=
  emit (EvFileOpen path mode);;
  fs ← get_files;
  match mode with
  | wb => put_files (<[path := []]> fs)
  | ab => put_files (<[path := default [] (fs !! path)]> fs)
  end.

(** [f.write(buffer)] on a file opened in either mode: the bytes go to the
    end. *)
Definition file_write (path : string) (buffer : list Byte.byte) : M unit :=
  emit (EvWrite path buffer);;
  fs ← get_files;
  put_files (<[path := (default [] (fs !! path) ++ buffer)%list]> fs).

(** ** Files read and written as text

    [open(path, 'r', encoding='utf-8')] and [read()]: the bytes are
    decoded, and every line ending, [\r\n] or [\r] alone, comes back as
    [\n]. *)

Definition CR : ascii := "013"%char.
Definition LF : ascii := "010"%char.

Fixpoint universal_newlines (s : string) : string :=
  match s with
  | EmptyString => EmptyString
  | String c s' =>
      if Ascii.eqb c CR then
        String LF
          match s' with
          | String c' s'' =>
              if Ascii.eqb c' LF then universal_newlines s'' else universal_newlines s'
          | EmptyString => EmptyString
          end
      else String c (universal_newlines s')
  end.

(** The file is missing ([None]), or it holds a text, or bytes that are
    no text. *)
Definition read_text (path : string) : M (option string) :=
  fs ← get_files;
  match fs !! path with
  | None => mret None
  | Some data =>
      match Utf8.decode data with
      | inl msg => raise (UnicodeDecodeError msg)
      | inr text => mret (Some (universal_newlines text))
      end
  end.

(** [open(path, 'w', encoding='utf-8')] and [write(text)]: the file holds
    the encoded text and nothing else ([\n] stays [\n]). *)
Definition write_text (path text : string) : M unit :=
  fs ← get_files;
  put_files (<[path := list_byte_of_string text]> fs).

(** ** [response.read(CHUNK_SIZE)], call after call *)

Fixpoint take_bytes (n : N) (data : list Byte.byte) : list Byte.byte :=
  match data with
  | [] => []
  | b :: data' => if (n =? 0)%N then [] else b :: take_bytes (N.pred n) data'
  end.

Fixpoint drop_bytes (n : N) (data : list Byte.byte) : list Byte.byte :=
  match data with
  | [] => []
  | _ :: data' => if (n =? 0)%N then data else drop_bytes (N.pred n) data'
  end.

Fixpoint read_chunks_fuel (fuel : nat) (n : N) (data : list Byte.byte)
  : list (list Byte.byte) :=
  match fuel, data with
  | S fuel', _ :: _ => take_bytes n data :: read_chunks_fuel fuel' n (drop_bytes n data)
  | _, _ => []
  end.

(** The non-empty buffers that successive [read(n)] calls return: [n]
    bytes each, the last one possibly shorter.  A buffer takes at least
    one byte, so there are at most [length data] of them. *)
Definition read_chunks (n : N) (data : list Byte.byte) : list (list Byte.byte) :=
  read_chunks_fuel (length data) n data.

(** The values of the local variables of [download_file] when it returns
    (the Python function returns nothing; the theorems speak about
    these). *)
Record summary : Type := Summary {
  s_output_file : string;
  s_file_mode : file_mode;
  s_total_size : option Z;
  s_downloaded : Z;
}.

Definition is_redirect (st : Z) : bool :=
  existsb (Z.eqb st) [301; 302; 303; 307; 308].

(** ** The program *)

Section Program.

(** What lies outside the program.  [opener_open] is the opener built
    with [NoRedirection], which hands every response back as it is;
    [urlopen] is the default opener, which follows redirects and raises
    [HTTPError] (a [URLError]) on a final status outside 2xx.  Either
    can fail with an exception of the network layer, or of the library
    on its way there (a header value it refuses to send, for one).
    [urlparse_rejects] gives the message of the [ValueError] with which
    [urlparse] refuses a URL whose authority part is malformed, and
    [invalid_literal] the message of the [ValueError] with which [int]
    refuses a text (the interpreter words it, around the [repr] of the
    text).  [typed_token] is the line the user types at the prompt.
    [TOKEN_FILE] is the path [Path.home() / '.civitai' / 'config'], which
    depends on the user's home directory. *)
Variable opener_open : request -> exn + response.
Variable urlopen : request -> exn + response.
Variable urlparse_rejects : string -> option string.
Variable invalid_literal : string -> string.
Variable typed_token : string.
Variable TOKEN_FILE : string.

Definition lift_result {A} (r : exn + A) : M A :=
  match r with
  | inl e => raise e
  | inr x => mret x
  end.

Definition send_open (r : request) : M response :=
  emit (EvOpen r);; lift_result (opener_open r).

Definition send_urlopen (r : request) : M response :=
  emit (EvUrlopen r);; lift_result (urlopen r).

Definition read_header (resp : response) (name : string) : M (option string) :=
  emit (EvGetHeader name);; mret (getheader resp name).

(** [urlparse(redirect_url).query] *)
Definition urlparse_query (url : string) : M string :=
  match urlparse_rejects url with
  | Some msg => raise (ValueError msg)
  | None => mret (Url.query url)
  end.

(** *** The credential file

    When [TOKEN_FILE] is missing, [open] raises [FileNotFoundError] and
    the [except] clause of [get_token] returns [None].  When it holds
    bytes that are no UTF-8 text, [read] raises [UnicodeDecodeError], a
    [ValueError], which that clause does not name. *)

Definition get_token : M (option string) := read_text TOKEN_FILE.

Definition store_token (token : string) : M unit := write_text TOKEN_FILE token.

Definition prompt_for_civitai_token : M string :=
  emit (EvInput "Please enter your CivitAI API token: ");;
  let token := typed_token in
  store_token token;;
  mret token.

(** *** [download_file], first half (lines 75 to 105): the redirect and
    the file name *)

Definition resolve (url token : string) : M (string * string) :=
  let headers := [("Authorization", "Bearer " +:+ token);
                  ("User-Agent", USER_AGENT)] in
  let request := Request url headers in
  response ← send_open request;
  if is_redirect (status response) then
    redirect_url ← read_header response "Location";
    match redirect_url with
    | None =>
        (* urlparse(None) is the empty URL: its query has no parameter *)
        raise (ValueError "Unable to determine filename")
    | Some redirect_url =>
        parsed_query ← urlparse_query redirect_url;
        let query_params := Url.parse_qsl parsed_query in
        let content_disposition :=
          Url.first_value "response-content-disposition" query_params in
        match content_disposition with
        | Some cd =>
            if Str.truthy cd then
              match Str.split cd "filename=" !! 1%nat with
              | Some piece =>
                  mret (redirect_url, Url.unquote (Str.strip_char piece DQUOTE))
              | None => raise (IndexError "list index out of range")
              end
            else raise (ValueError "Unable to determine filename")
        | None => raise (ValueError "Unable to determine filename")
        end
    end
  else if status response =? 404 then
    raise (FileNotFoundError "File not found")
  else
    raise (RuntimeError "No redirect found, something went wrong").

(** *** The streaming loop

    [chunks] are the buffers the coming [read] calls return; after them
    [read] returns the empty buffer, or raises [eof_error]. *)
Fixpoint stream_loop (filename output_file : string) (total_size : option Z)
    (chunks : list (list Byte.byte)) (eof_error : option exn) (downloaded : Z)
  : M Z :=
  match chunks with
  | [] =>
      match eof_error with
      | Some e => raise e
      | None => mret downloaded
      end
  | buffer :: chunks' =>
      match buffer with
      | [] => mret downloaded
      | _ :: _ =>
          let downloaded := downloaded + Z.of_nat (length buffer) in
          file_write output_file buffer;;
          match total_size with
          | Some total =>
              (* progress = downloaded / total_size *)
              if total =? 0 then raise (ZeroDivisionError "division by zero")
              else emit (EvOut (OutProgress filename downloaded total))
          | None => mret tt
          end;;
          stream_loop filename output_file total_size chunks' eof_error downloaded
      end
  end.

(** *** [download_file], second half: resume negotiation and streaming

    Lines 119 to 134: the request for the content, with a [Range]
    header when a partial file was found. *)

Definition negotiate (redirect_url : string) (resume_byte_pos : Z) : M (Z * response) :=
  if 0 <? resume_byte_pos then
    let resume_headers := [("Range", "bytes=" +:+ pretty resume_byte_pos +:+ "-")] in
    let resume_request := Request redirect_url resume_headers in
    response ← send_urlopen resume_request;
    if status response =? 206 then
      print "Server supports resume, continuing download...";;
      mret (resume_byte_pos, response)
    else if status response =? 200 then
      print "Server does not support resume, restarting download...";;
      response ← send_urlopen (Request redirect_url []);
      mret (0, response)
    else
      raise (RuntimeError ("Unexpected response status: " +:+ pretty (status response)))
  else
    response ← send_urlopen (Request redirect_url []);
    mret (resume_byte_pos, response).

(** Lines 136 to 185: the total, the file mode, the loop and the final
    report, for the response and the resume offset the negotiation
    settled on. *)
Definition stream_to_file (filename output_file : string) (resume_byte_pos : Z)
    (response : response) : M summary :=
  total_size ← read_header response "Content-Length";
  total_size ←
    match total_size with
    | Some text =>
        match PyInt.int text with
        | Some n =>
            if (0 <? resume_byte_pos) && (status response =? 206)
            then mret (Some (n + resume_byte_pos))
            else mret (Some n)
        | None => raise (ValueError (invalid_literal text))
        end
    | None => mret None
    end;
  let file_mode := if 0 <? resume_byte_pos then ab else wb in
  file_open output_file file_mode;;
  downloaded ← stream_loop filename output_file total_size
                 (read_chunks CHUNK_SIZE (body response)) (body_error response)
                 resume_byte_pos;
  emit (EvOut OutNewline);;
  print ("Download completed. File saved as: " +:+ filename);;
  emit (EvOut OutElapsed);;
  mret (Summary output_file file_mode total_size downloaded).

(** Lines 107 to 185 of [download_file]. *)
Definition transfer (redirect_url filename output_path : string) : M summary :=
  emit (EvMakedirs output_path);;
  let output_file := path_join output_path filename in
  found ← path_exists output_file;
  resume_byte_pos ←
    (if found : bool then
       size ← getsize output_file;
       emit (EvOut (OutFound size));;
       mret size
     else mret 0);
  '(resume_byte_pos, response) ← negotiate redirect_url resume_byte_pos;
  stream_to_file filename output_file resume_byte_pos response.

Definition download_file (url output_path token : string) : M summary :=
  '(redirect_url, filename) ← resolve url token;
  transfer redirect_url filename output_path.

(** *** [main]; the two arguments are what [get_args] parsed *)

Definition main (args_url args_output_path : string) : M unit :=
  token ← get_token;
  token ←
    match token with
    | Some t => if Str.truthy t then mret t else prompt_for_civitai_token
    | None => prompt_for_civitai_token
    end;
  let url := normalize_url args_url in
  try_except
    (download_file url args_output_path token;; mret tt)
    (fun e => print ("ERROR: " +:+ message e)).

End Program.

(** * Notions the statements use *)

(** The requests recorded in a log, in the order they were sent. *)
Fixpoint sent (log : list event) : list request :=
  match log with
  | [] => []
  | EvOpen r :: log' => r :: sent log'
  | EvUrlopen r :: log' => r :: sent log'
  | _ :: log' => sent log'
  end.

(** The header reads recorded in a log. *)
Fixpoint headers_read (log : list event) : list string :=
  match log with
  | [] => []
  | EvGetHeader name :: log' => name :: headers_read log'
  | _ :: log' => headers_read log'
  end.

(** The buffers written to [path], in order. *)
Fixpoint written (path : string) (log : list event) : list (list Byte.byte) :=
  match log with
  | [] => []
  | EvWrite p data :: log' =>
      if String.eqb p path then data :: written path log' else written path log'
  | _ :: log' => written path log'
  end.

(** Evaluation of the primitive steps, keeping the larger functions
    folded. *)
Ltac prim :=
  unfold send_open, send_urlopen, read_header, urlparse_query, lift_result,
    file_open, file_write, path_exists, getsize, print, raise, emit,
    get_token, store_token, read_text, write_text,
    get_files, put_files, mbind, M_bind, mret, M_ret in *;
  cbn beta iota zeta delta [w_files w_log log_event fst snd] in *.

(** The headers of the resolution request. *)
Definition credentials (token : string) : list (string * string) :=
  [("Authorization", "Bearer " +:+ token); ("User-Agent", USER_AGENT)].

Definition range_header (resume_byte_pos : Z) : list (string * string) :=
  [("Range", "bytes=" +:+ pretty resume_byte_pos +:+ "-")].

(** A request of the transfer: to the content URL, with the [Range] header
    alone or with no header at all. *)
Definition transfer_request (redirect_url : string) (r : request) : Prop :=
  req_url r = redirect_url
  /\ (req_headers r = [] \/ exists n : Z, req_headers r = range_header n).

(** The text between the first occurrence of [sep] in [s] and the next
    one, or the end of [s]. *)
Definition piece_after (sep s : string) : option string :=
  match Str.split_once sep s with
  | None => None
  | Some (_, rest) =>
      Some (match Str.split_once sep rest with
            | Some (piece, _) => piece
            | None => rest
            end)
  end.

(** The length the response declares, when its [Content-Length] header is
    present and a number. *)
Definition declared_length (resp : response) : option Z :=
  getheader resp "Content-Length" ≫= PyInt.int.

(** The total the engine works with. *)
Definition expected_total (resume_byte_pos : Z) (resp : response) : option Z :=
  (fun n => if (0 <? resume_byte_pos) && (status resp =? 206)
            then n + resume_byte_pos else n) <$> declared_length resp.

(** What the file holds when the loop starts: its old content in append
    mode, nothing after a truncation. *)
Definition starting_content (resume_byte_pos : Z) (existing : option (list Byte.byte))
  : list Byte.byte :=
  if 0 <? resume_byte_pos then default [] existing else [].

Definition mode_for (resume_byte_pos : Z) : file_mode :=
  if 0 <? resume_byte_pos then ab else wb.

Definition header_is_number (resp : response) : Prop :=
  forall text, getheader resp "Content-Length" = Some text -> is_Some (PyInt.int text).

(** The size of the local file, zero when there is none. *)
Definition found_size (w : world) (path : string) : Z :=
  match w_files w !! path with
  | Some content => Z.of_nat (length content)
  | None => 0
  end.

(** The world once the output directory is ensured and the local file
    looked for. *)
Definition after_check (output_path path : string) (w : world) : world :=
  match w_files w !! path with
  | Some content =>
      log_event (EvOut (OutFound (Z.of_nat (length content))))
        (log_event (EvMakedirs output_path) w)
  | None => log_event (EvMakedirs output_path) w
  end.

Definition has_header (name value : string) (r : request) : bool :=
  existsb (fun h => String.eqb (fst h) name && String.eqb (snd h) value) (req_headers r).

(** The request carries [Authorization: Bearer <token>] and the static
    [User-Agent]. *)
Definition carries_credentials (token : string) (r : request) : bool :=
  has_header "Authorization" ("Bearer " +:+ token) r
  && has_header "User-Agent" USER_AGENT r.

(** The bytes of the token file. *)
Definition token_bytes (TOKEN_FILE : string) (w : world) : option (list Byte.byte) :=
  w_files w !! TOKEN_FILE.

(** The token file can be read: it is missing, or it holds a text. *)
Definition token_readable (TOKEN_FILE : string) (w : world) : bool :=
  match token_bytes TOKEN_FILE w with
  | Some data => Utf8.well_formed (string_of_list_byte data)
  | None => true
  end.

(** The text [get_token] returns where the token file can be read. *)
Definition stored_token (TOKEN_FILE : string) (w : world) : option string :=
  match token_bytes TOKEN_FILE w with
  | Some data =>
      if Utf8.well_formed (string_of_list_byte data)
      then Some (universal_newlines (string_of_list_byte data))
      else None
  | None => None
  end.

(** The token [main] works with, and the world in which it calls
    [download_file]: the stored token when there is a non-empty one,
    otherwise the typed one, stored on the way. *)
Definition session_token (typed_token TOKEN_FILE : string) (w : world) : string :=
  match stored_token TOKEN_FILE w with
  | Some t => if Str.truthy t then t else typed_token
  | None => typed_token
  end.

Definition prompted (typed_token TOKEN_FILE : string) (w : world) : world :=
  {| w_files := <[TOKEN_FILE := list_byte_of_string typed_token]> (w_files w);
     w_log := w_log w ++ [EvInput "Please enter your CivitAI API token: "] |}.

Definition session_world (typed_token TOKEN_FILE : string) (w : world) : world :=
  match stored_token TOKEN_FILE w with
  | Some t => if Str.truthy t then w else prompted typed_token TOKEN_FILE w
  | None => prompted typed_token TOKEN_FILE w
  end.

(** The text holds a carriage return. *)
Definition has_cr (s : string) : bool := Url.contains_char CR s.

(** * Concrete servers and worlds, for the examples *)

Definition empty_world : world := World ∅ [].

(** The token file of the examples, and the wording of [int]'s refusal
    for a text of plain letters and digits. *)
Definition sample_token_file : string := "/home/user/.civitai/config".

Definition quoted_literal : string -> string :=
  fun text => "invalid literal for int() with base 10: '" +:+ text +:+ "'".

Definition bytes_of (text : string) : list Byte.byte := list_byte_of_string text.

Definition no_headers : string -> option string := fun _ => None.

Definition one_header (name value : string) : string -> option string :=
  fun asked => if String.eqb asked name then Some value else None.

Definition redirect_to (location : string) : response :=
  Response 302 (one_header "Location" location) [] None.

Definition status_only (st : Z) : response := Response st no_headers [] None.

Definition answer (resp : response) : request -> exn + response := fun _ => inr resp.

Definition accepts_all : string -> option string := fun _ => None.

Definition zeros (n : nat) : list Byte.byte := repeat Byte.x00 n.

Definition ones (n : nat) : list Byte.byte := repeat Byte.x01 n.

Definition with_length (st : Z) (text : string) (data : list Byte.byte) : response :=
  Response st (one_header "Content-Length" text) data None.

(** A server that answers requests with headers (the range request) with
    [ranged] and requests without headers with [full]. *)
Definition range_server (ranged full : response) : request -> exn + response :=
  fun r => match req_headers r with
           | [] => inr full
           | _ :: _ => inr ranged
           end.

Definition model_id_url : string := "https://civitai.com/api/download/models/46846".

Definition mock_location : string :=
  "https://cdn.example/files/46846?response-content-disposition=attachment%3B%20filename%3D%22model.safetensors%22".

Definition inline_location : string :=
  "https://cdn.example/files/46846?response-content-disposition=inline".

Definition model_path : string := "models/model.safetensors".

(** A world with a partial file of 1000 bytes, and one with a file of
    1500 bytes; the token file holds [secret] in both. *)
Definition partial_world : world :=
  World (<[model_path := zeros 1000]> {[ sample_token_file := bytes_of "secret" ]}) [].

Definition complete_world : world :=
  World (<[model_path := ones 1500]> {[ sample_token_file := bytes_of "secret" ]}) [].

Definition resolver_ok : request -> exn + response := answer (redirect_to mock_location).


Definition ignores_range : request -> exn + response :=
  range_server (with_length 200 "1500" (ones 1500)) (with_length 200 "1500" (ones 1500)).

Definition nothing_left : request -> exn + response :=
  range_server (with_length 206 "0" []) (with_length 200 "1500" (ones 1500)).

Definition sends_too_much : request -> exn + response :=
  answer (with_length 200 "3" (ones 5)).

Definition declares_nothing : request -> exn + response :=
  answer (with_length 200 "0" (ones 1)).

(** A chunked body that ends in the middle of a chunk. *)
Definition breaks_midway : request -> exn + response :=
  answer (Response 200 no_headers (ones 5)
            (Some (HTTPException "IncompleteRead(0 bytes read)"))).

(** A token with spaces around it, and token files: one with that token,
    one saved with a Windows line ending, one with a carriage return
    that the library lets through in a header (a space follows it), one
    that is no text. *)
Definition spaced_token : string := " secret ".

Definition spaced_world : world :=
  World {[ sample_token_file := bytes_of spaced_token ]} [].

Definition crlf_world : world :=
  World {[ sample_token_file := bytes_of ("secret" +:+ String CR (String LF EmptyString)) ]} [].

Definition folded_world : world :=
  World {[ sample_token_file := bytes_of ("secret" +:+ String CR " key") ]} [].

Definition garbled_world : world :=
  World {[ sample_token_file := [Byte.xff; Byte.xfe] ]} [].

(** A server that refuses the range of a complete file, as the protocol
    has it (status 416, which [urlopen] raises as [HTTPError]); one that
    ignores the range and whose full transfer breaks after five bytes. *)
Definition range_not_satisfiable : request -> exn + response :=
  fun r => match req_headers r with
           | [] => inr (with_length 200 "1500" (ones 1500))
           | _ :: _ => inl (URLError "HTTP Error 416: Requested Range Not Satisfiable")
           end.

Definition restarts_and_breaks : request -> exn + response :=
  answer (Response 200 (one_header "Content-Length" "1500") (ones 5)
            (Some (OSError "[Errno 104] Connection reset by peer"))).

(** * Further notions, for the properties beyond the resume protocol *)

(** The prompts recorded in a log. *)
Fixpoint prompts (log : list event) : list string :=
  match log with
  | [] => []
  | EvInput prompt :: log' => prompt :: prompts log'
  | _ :: log' => prompts log'
  end.

(** The files opened, with their modes, as recorded in a log. *)
Fixpoint opened (log : list event) : list (string * file_mode) :=
  match log with
  | [] => []
  | EvFileOpen path mode :: log' => (path, mode) :: opened log'
  | _ :: log' => opened log'
  end.

(** Events of the network and of the plain terminal output: no prompt, no
    file operation, no progress report. *)
Definition is_quiet (ev : event) : bool :=
  match ev with
  | EvOpen _ | EvUrlopen _ | EvGetHeader _ | EvMakedirs _ => true
  | EvOut (OutProgress _ _ _) => false
  | EvOut _ => true
  | EvFileOpen _ _ | EvWrite _ _ | EvInput _ => false
  end.

Definition is_input (ev : event) : bool :=
  match ev with
  | EvInput _ => true
  | _ => false
  end.

(** Every progress report of [log] shows [count] advanced by the bytes
    written before the report. *)
Fixpoint progress_consistent (count : Z) (log : list event) : Prop :=
  match log with
  | [] => True
  | EvWrite _ data :: log' =>
      progress_consistent (count + Z.of_nat (length data)) log'
  | EvOut (OutProgress _ downloaded _) :: log' =>
      downloaded = count /\ progress_consistent count log'
  | _ :: log' => progress_consistent count log'
  end.

(** What a step may do to the world when [path] is the one file it may
    write: the other files stay, the log grows by events that are no
    prompts. *)
Definition footprint (path : string) (w w' : world) : Prop :=
  (forall p, p <> path -> w_files w' !! p = w_files w !! p)
  /\ exists evs, w_log w' = (w_log w ++ evs)%list
                 /\ Forall (fun ev => is_input ev = false) evs.

(** A step that leaves the files alone and is quiet. *)
Definition quiet_step (w w' : world) : Prop :=
  w_files w' = w_files w
  /\ exists evs, w_log w' = (w_log w ++ evs)%list
                 /\ Forall (fun ev => is_quiet ev = true) evs.

(** The world in which the loop starts: the header read, the file opened
    in the mode the offset calls for. *)
Definition loop_start (path : string) (resume_byte_pos : Z) (w : world) : world :=
  {| w_files := <[path := starting_content resume_byte_pos (w_files w !! path)]>
                  (w_files w);
     w_log := w_log w ++ [EvGetHeader "Content-Length";
                          EvFileOpen path (mode_for resume_byte_pos)] |}.


(** The three lines the program prints after the loop. *)
Definition report_done (filename : string) (w : world) : world :=
  log_event (EvOut OutElapsed)
    (log_event (EvOut (OutLine ("Download completed. File saved as: " +:+ filename)))
       (log_event (EvOut OutNewline) w)).

(** More servers. *)

Definition absolute_location : string :=
  "https://cdn.example/files/46846?response-content-disposition=attachment%3B%20filename%3D%22%2Ftmp%2Fmodel.bin%22".

Definition refuses_range : request -> exn + response :=
  range_server (status_only 204) (with_length 200 "1500" (ones 1500)).

Definition garbled_length : request -> exn + response :=
  range_server (with_length 200 "1500" (ones 1500)) (with_length 200 "15oo" (ones 1500)).

Definition connection_reset : exn := OSError "[Errno 104] Connection reset by peer".

Definition breaks_after_five : request -> exn + response :=
  answer (Response 200 (one_header "Content-Length" "8") (ones 5) (Some connection_reset)).

Definition sends_the_rest : request -> exn + response :=
  range_server (with_length 206 "3" (zeros 3)) (with_length 200 "8" (ones 8)).

Definition sends_eight : request -> exn + response :=
  answer (with_length 200 "8" (ones 8)).

Definition resolver_absolute : request -> exn + response :=
  answer (redirect_to absolute_location).

(** A world with a stored token and no other file. *)
Definition token_world : world :=
  World {[ sample_token_file := bytes_of "secret" ]} [].

(** A redirect whose file name is the path of the token file. *)
Definition token_file_location : string :=
  "https://cdn.example/files/46846?response-content-disposition=attachment%3B%20filename%3D%22%2Fhome%2Fuser%2F.civitai%2Fconfig%22".

Definition resolver_token_file : request -> exn + response :=
  answer (redirect_to token_file_location).

(** Side conditions of the concrete runs, by evaluation. *)
Ltac by_run :=
  lazymatch goal with
  | |- header_is_number _ =>
      let text := fresh "text" in
      let H := fresh "H" in
      intros text H; vm_compute in H; injection H as <-; vm_compute;
      eexists; reflexivity
  | |- forall L, declared_length _ = Some L -> _ =>
      let L := fresh "L" in
      let H := fresh "H" in
      intros L H; vm_compute in H; injection H as <-; vm_compute; discriminate
  | |- _ = _ -> _ =>
      let H := fresh "H" in
      intros H; vm_compute in H; discriminate H
  | |- _ \/ _ => left; vm_compute; reflexivity
  | |- _ => first [ vm_compute; reflexivity | vm_compute; discriminate ]
  end.

(** * Properties *)

(** ** The library models on samples *)

Example normalize_id : normalize_url "46846" = "https://civitai.com/api/download/models/46846".
Proof. reflexivity. Qed.

Example unquote_sample :
  Url.unquote "attachment%3B%20filename%3D%22model.safetensors%22"
  = "attachment; filename=" +:+ String DQUOTE ("model.safetensors" +:+ String DQUOTE "").
Proof. vm_compute. reflexivity. Qed.

(** Escapes that spell a character outside ASCII give that character; a
    byte that belongs to no character gives U+FFFD; a [%] without two
    hexadecimal digits stays. *)
Example unquote_beyond_ascii :
  Url.unquote "caf%C3%A9" = "caf" +:+ String "195" (String "169" EmptyString)
  /\ Url.unquote "a%FFb" = "a" +:+ Utf8.REPLACEMENT +:+ "b"
  /\ Url.unquote "%E2%82" = Utf8.REPLACEMENT
  /\ Url.unquote "100%" = "100%"
  /\ Url.unquote "%zz%41" = "%zzA".
Proof. repeat split; vm_compute; reflexivity. Qed.

Example int_samples :
  PyInt.int "500" = Some 500 /\ PyInt.int " 1_000 " = Some 1000
  /\ PyInt.int "-5" = Some (-5) /\ PyInt.int "12a" = None /\ PyInt.int "" = None
  /\ PyInt.int (String "031" "500") = None
  /\ PyInt.int (String "194" (String "160" "500")) = Some 500
  /\ PyInt.int "1__0" = None /\ PyInt.int "- 5" = None.
Proof. repeat split; vm_compute; reflexivity. Qed.

Example decode_samples :
  Utf8.decode [Byte.x68; Byte.x69] = inr "hi"
  /\ Utf8.decode [Byte.x61; Byte.xc3]
     = inl "'utf-8' codec can't decode byte 0xc3 in position 1: unexpected end of data"
  /\ Utf8.decode [Byte.xed; Byte.xa0; Byte.x80]
     = inl "'utf-8' codec can't decode byte 0xed in position 0: invalid continuation byte"
  /\ Utf8.decode [Byte.xe2; Byte.x82; Byte.x28]
     = inl "'utf-8' codec can't decode bytes in position 0-1: invalid continuation byte"
  /\ universal_newlines ("a" +:+ String CR (String LF ("b" +:+ String CR "c")))
     = "a" +:+ String LF ("b" +:+ String LF "c").
Proof. repeat split; vm_compute; reflexivity. Qed.

(** ** Reading in chunks loses nothing *)

Lemma take_drop_bytes (n : N) (data : list Byte.byte) :
  (take_bytes n data ++ drop_bytes n data)%list = data.
Proof.
  revert n. induction data as [|b data IH]; intros n; simpl; [done|].
  destruct (n =? 0)%N; simpl; [done|]. by rewrite IH.
Qed.

Lemma take_bytes_nonempty (n : N) (data : list Byte.byte) :
  (0 < n)%N -> data <> [] -> take_bytes n data <> [].
Proof.
  intros Hn Hd. destruct data as [|b data]; [done|]. simpl.
  destruct (N.eqb_spec n 0); [lia | done].
Qed.

Lemma drop_bytes_shorter (n : N) (data : list Byte.byte) :
  (0 < n)%N -> data <> [] -> (length (drop_bytes n data) < length data)%nat.
Proof.
  intros Hn Hd. destruct data as [|b data]; [done|]. simpl.
  destruct (N.eqb_spec n 0); [lia|].
  clear. generalize (N.pred n). induction data as [|c data IH]; intros m; simpl; [lia|].
  destruct (m =? 0)%N; simpl; [lia|]. specialize (IH (N.pred m)). lia.
Qed.

Lemma read_chunks_fuel_concat (fuel : nat) (n : N) (data : list Byte.byte) :
  (0 < n)%N -> (length data <= fuel)%nat ->
  concat (read_chunks_fuel fuel n data) = data.
Proof.
  intros Hn. revert data. induction fuel as [|fuel IH]; intros data Hlen.
  - destruct data; simpl in *; [done | lia].
  - destruct data as [|b data]; [done|].
    change (read_chunks_fuel (S fuel) n (b :: data))
      with (take_bytes n (b :: data)
              :: read_chunks_fuel fuel n (drop_bytes n (b :: data))).
    rewrite concat_cons, IH; [apply take_drop_bytes|].
    assert (Hne : b :: data <> []) by done.
    pose proof (drop_bytes_shorter n (b :: data) Hn Hne). lia.
Qed.

Lemma read_chunks_concat (n : N) (data : list Byte.byte) :
  (0 < n)%N -> concat (read_chunks n data) = data.
Proof. intros Hn. by apply read_chunks_fuel_concat. Qed.

Lemma read_chunks_nonempty (n : N) (data : list Byte.byte) :
  (0 < n)%N -> Forall (fun buffer => buffer <> []) (read_chunks n data).
Proof.
  intros Hn. unfold read_chunks. generalize (length data) as fuel.
  intros fuel. revert data. induction fuel as [|fuel IH]; intros data.
  - destruct data; constructor.
  - destruct data as [|b data]; [constructor|].
    change (read_chunks_fuel (S fuel) n (b :: data))
      with (take_bytes n (b :: data)
              :: read_chunks_fuel fuel n (drop_bytes n (b :: data))).
    constructor; [by apply take_bytes_nonempty | apply IH].
Qed.

Lemma CHUNK_SIZE_pos : (0 < CHUNK_SIZE)%N.
Proof. reflexivity. Qed.

(** A body shorter than one chunk is read in one piece. *)
Lemma take_bytes_all (n : N) (data : list Byte.byte) :
  (N.of_nat (length data) <= n)%N -> take_bytes n data = data.
Proof.
  revert n. induction data as [|b data IH]; intros n Hn; simpl; [done|].
  simpl in Hn. destruct (N.eqb_spec n 0); [lia|]. rewrite IH; [done | lia].
Qed.

(** ** [normalize_url] *)

Lemma isdigit_not_http (s : string) :
  Str.isdigit s = true -> Str.startswith s "http" = false.
Proof.
  destruct s as [|c s]; [done|]. intros H.
  change (Str.startswith (String c s) "http")
    with (if Ascii.eqb "h" c then Str.startswith s "ttp" else false).
  destruct (Ascii.eqb_spec "h" c) as [<-|]; [|done].
  simpl in H. discriminate H.
Qed.

(** C7, as the code has it: a string of digits gets the base endpoint in
    front; a string that starts with the four characters [http] comes
    back unchanged; every other string gets the base endpoint in front as
    well. *)
Theorem normalize_url_cases (s : string) :
  (Str.isdigit s = true -> normalize_url s = BASE_URL +:+ s)
  /\ (Str.startswith s "http" = true -> normalize_url s = s)
  /\ (Str.startswith s "http" = false -> normalize_url s = BASE_URL +:+ s).
Proof.
  unfold normalize_url. repeat split; intros H.
  - by rewrite H.
  - destruct (Str.isdigit s) eqn:Hd; [|by rewrite H].
    apply isdigit_not_http in Hd. congruence.
  - rewrite H. by destruct (Str.isdigit s).
Qed.

Lemma normalize_url_cases_witness :
  normalize_url "12345" = "https://civitai.com/api/download/models/12345"
  /\ normalize_url "https://civitai.com/api/download/models/46846"
     = "https://civitai.com/api/download/models/46846"
  /\ normalize_url "model-7" = "https://civitai.com/api/download/models/model-7".
Proof.
  split; [|split].
  - apply (proj1 (normalize_url_cases "12345")). reflexivity.
  - apply (proj1 (proj2 (normalize_url_cases
             "https://civitai.com/api/download/models/46846"))). reflexivity.
  - apply (proj2 (proj2 (normalize_url_cases "model-7"))). reflexivity.
Defined.

(** C7 as the specification words it fails: a string that begins with a
    scheme other than lower-case [http...] is not returned unchanged. *)
Lemma normalize_url_other_scheme :
  begins_with_scheme "ftp://civitai.com/models/46846" = true
  /\ normalize_url "ftp://civitai.com/models/46846"
     = "https://civitai.com/api/download/models/ftp://civitai.com/models/46846"
  /\ normalize_url "ftp://civitai.com/models/46846" <> "ftp://civitai.com/models/46846"
  /\ begins_with_scheme "HTTPS://civitai.com/api/download/models/46846" = true
  /\ normalize_url "HTTPS://civitai.com/api/download/models/46846"
     <> "HTTPS://civitai.com/api/download/models/46846".
Proof. repeat split; done. Qed.

(** ** Running the monad *)

Lemma bind_run {A B} (m : M A) (f : A -> M B) (w : world) :
  (m ≫= f) w = match m w with
               | (inr x, w') => f x w'
               | (inl e, w') => (inl e, w')
               end.
Proof. reflexivity. Qed.

Lemma bind_ok {A B} (m : M A) (f : A -> M B) (w w' : world) (x : A) :
  m w = (inr x, w') -> (m ≫= f) w = f x w'.
Proof. intros H. by rewrite bind_run, H. Qed.

Lemma bind_fail {A B} (m : M A) (f : A -> M B) (w w' : world) (e : exn) :
  m w = (inl e, w') -> (m ≫= f) w = (inl e, w').
Proof. intros H. by rewrite bind_run, H. Qed.

Lemma sent_app (l1 l2 : list event) : sent (l1 ++ l2) = (sent l1 ++ sent l2)%list.
Proof.
  induction l1 as [|ev l1 IH]; [done|].
  destruct ev; simpl; by rewrite ?IH.
Qed.

(** ** The streaming loop *)

Section Loop.

Variables (filename path : string) (total_size : option Z).

(** With nothing going wrong, the loop appends every buffer and counts
    every byte.  The one arithmetic failure is the division by a total
    of zero at the first buffer. *)
Lemma stream_loop_ok (chunks : list (list Byte.byte)) :
  Forall (fun buffer => buffer <> []) chunks ->
  (total_size = Some 0 -> chunks = []) ->
  forall (downloaded : Z) (w : world) (old : list Byte.byte),
    w_files w !! path = Some old ->
    exists w',
      stream_loop filename path total_size chunks None downloaded w
      = (inr (downloaded + Z.of_nat (length (concat chunks))), w')
      /\ w_files w' = <[path := (old ++ concat chunks)%list]> (w_files w)
      /\ sent (w_log w') = sent (w_log w).
Proof.
  induction 1 as [|buffer chunks Hne Hall IH]; intros Htot downloaded w old Hold.
  - exists w. simpl. rewrite app_nil_r, Z.add_0_r.
    split; [done|]. split; [by rewrite insert_id | done].
  - destruct buffer as [|b buffer]; [done|].
    assert (Hprog : exists w1,
      (file_write path (b :: buffer);;
       match total_size with
       | Some total =>
           if total =? 0 then raise (ZeroDivisionError "division by zero")
           else emit (EvOut (OutProgress filename
                  (downloaded + Z.of_nat (length (b :: buffer))) total))
       | None => mret tt
       end) w = (inr tt, w1)
      /\ w_files w1 = <[path := (old ++ b :: buffer)%list]> (w_files w)
      /\ sent (w_log w1) = sent (w_log w)).
    { prim. rewrite Hold. simpl default.
      destruct total_size as [total|].
      - destruct (Z.eqb_spec total 0) as [->|_]; [by specialize (Htot eq_refl)|].
        eexists. split; [done|]. simpl.
        split; [done|]. by rewrite !sent_app, !app_nil_r.
      - eexists. split; [done|]. simpl.
        split; [done|]. by rewrite !sent_app, !app_nil_r. }
    destruct Hprog as (w1 & Hrun & Hfiles & Hsent).
    destruct (IH (fun H => ltac:(by specialize (Htot H)))
                (downloaded + Z.of_nat (length (b :: buffer))) w1
                (old ++ b :: buffer)%list) as (w' & Hloop & Hf' & Hs').
    { rewrite Hfiles. apply lookup_insert_eq. }
    exists w'.
    change (stream_loop filename path total_size ((b :: buffer) :: chunks) None downloaded)
      with ((file_write path (b :: buffer);;
             match total_size with
             | Some total =>
                 if total =? 0 then raise (ZeroDivisionError "division by zero")
                 else emit (EvOut (OutProgress filename
                        (downloaded + Z.of_nat (length (b :: buffer))) total))
             | None => mret tt
             end);;
            stream_loop filename path total_size chunks None
              (downloaded + Z.of_nat (length (b :: buffer)))).
    rewrite (bind_ok _ _ _ _ _ Hrun), Hloop.
    split.
    { f_equal. f_equal. rewrite concat_cons, length_app. lia. }
    rewrite Hf', Hfiles, insert_insert_eq, concat_cons, <- app_assoc.
    split; [done|]. congruence.
Qed.

End Loop.

Section LoopInversion.

Variables (filename path : string) (total_size : option Z).

(** The loop sends nothing, whatever happens. *)
Lemma stream_loop_sent (chunks : list (list Byte.byte)) (eof_error : option exn) :
  forall (downloaded : Z) (w : world),
    sent (w_log (snd (stream_loop filename path total_size chunks eof_error
                        downloaded w)))
    = sent (w_log w).
Proof.
  induction chunks as [|buffer chunks IH]; intros downloaded w.
  - simpl. by destruct eof_error.
  - destruct buffer as [|b buffer]; [done|].
    cbn [stream_loop]. rewrite !bind_run. prim.
    destruct total_size as [total|].
    + destruct (total =? 0); prim.
      * by rewrite sent_app, app_nil_r.
      * rewrite IH. prim. by rewrite !sent_app, !app_nil_r.
    + prim. rewrite IH. prim. by rewrite !sent_app, !app_nil_r.
Qed.

(** A run of the loop that returns met neither a broken stream nor the
    division by zero. *)
Lemma stream_loop_inv (chunks : list (list Byte.byte)) (eof_error : option exn) :
  Forall (fun buffer => buffer <> []) chunks ->
  forall (downloaded result : Z) (w w' : world),
    stream_loop filename path total_size chunks eof_error downloaded w
    = (inr result, w') ->
    eof_error = None /\ (total_size = Some 0 -> chunks = []).
Proof.
  induction 1 as [|buffer chunks Hne Hall IH]; intros downloaded result w w' Hrun.
  - simpl in Hrun. destruct eof_error; [discriminate Hrun | done].
  - destruct buffer as [|b buffer]; [done|].
    cbn [stream_loop] in Hrun. rewrite !bind_run in Hrun. prim.
    destruct total_size as [total|].
    + destruct (Z.eqb_spec total 0) as [->|Hnz]; prim; [discriminate Hrun|].
      apply IH in Hrun as [-> _]. split; [done|]. intros [=]. lia.
    + prim. apply IH in Hrun as [-> _]. done.
Qed.

End LoopInversion.

(** ** Resume negotiation *)

Section Negotiation.

Variable urlopen : request -> exn + response.
Variable redirect_url : string.

Lemma negotiate_206 (n : Z) (resp : response) (w : world) :
  0 < n ->
  urlopen (Request redirect_url (range_header n)) = inr resp ->
  status resp = 206 ->
  negotiate urlopen redirect_url n w
  = (inr (n, resp),
     log_event (EvOut (OutLine "Server supports resume, continuing download..."))
       (log_event (EvUrlopen (Request redirect_url (range_header n))) w)).
Proof.
  intros Hn Hresp Hst. unfold negotiate, range_header in *.
  destruct (Z.ltb_spec 0 n); [|lia].
  rewrite bind_run. prim. rewrite Hresp, Hst. reflexivity.
Qed.

Lemma negotiate_200 (n : Z) (resp fresh : response) (w : world) :
  0 < n ->
  urlopen (Request redirect_url (range_header n)) = inr resp ->
  status resp = 200 ->
  urlopen (Request redirect_url []) = inr fresh ->
  negotiate urlopen redirect_url n w
  = (inr (0, fresh),
     log_event (EvUrlopen (Request redirect_url []))
       (log_event (EvOut (OutLine "Server does not support resume, restarting download..."))
          (log_event (EvUrlopen (Request redirect_url (range_header n))) w))).
Proof.
  intros Hn Hresp Hst Hfresh. unfold negotiate, range_header in *.
  destruct (Z.ltb_spec 0 n); [|lia].
  rewrite bind_run. prim. rewrite Hresp, Hst. simpl. rewrite Hfresh. reflexivity.
Qed.

Lemma negotiate_fresh (resp : response) (w : world) :
  urlopen (Request redirect_url []) = inr resp ->
  negotiate urlopen redirect_url 0 w
  = (inr (0, resp), log_event (EvUrlopen (Request redirect_url [])) w).
Proof.
  intros Hresp. unfold negotiate. simpl. rewrite bind_run. prim.
  rewrite Hresp. reflexivity.
Qed.

(** What a successful negotiation leaves: the files untouched, a
    response of the server, and either a resume offset of zero or less,
    or the old offset together with a status of 206. *)
Lemma negotiate_inv (n n' : Z) (resp : response) (w w' : world) :
  negotiate urlopen redirect_url n w = (inr (n', resp), w') ->
  w_files w' = w_files w
  /\ (exists req, transfer_request redirect_url req /\ urlopen req = inr resp)
  /\ ((n' <= 0 /\ (n' = 0 \/ n' = n)) \/ (0 < n' /\ n' = n /\ status resp = 206)).
Proof.
  unfold negotiate. destruct (Z.ltb_spec 0 n) as [Hpos|Hneg].
  - rewrite bind_run. prim.
    destruct (urlopen (Request redirect_url _)) as [e|r] eqn:Hr; [done|].
    destruct (Z.eqb_spec (status r) 206) as [H206|_].
    + intros [= <- <- <-]. repeat split; try done.
      * eexists. split; [|exact Hr]. split; [done|]. right. by eexists.
      * right. done.
    + destruct (Z.eqb_spec (status r) 200) as [H200|_]; [|done].
      destruct (urlopen (Request redirect_url [])) as [e|r'] eqn:Hr'; [done|].
      intros [= <- <- <-]. repeat split; try done.
      * eexists. split; [|exact Hr']. split; [done|]. by left.
      * left. split; [lia | by left].
  - rewrite bind_run. prim.
    destruct (urlopen (Request redirect_url [])) as [e|r] eqn:Hr; [done|].
    intros [= <- <- <-]. repeat split; try done.
    + eexists. split; [|exact Hr]. split; [done|]. by left.
    + left. split; [lia | by right].
Qed.

(** Whatever the outcome, the negotiation sends transfer requests
    only. *)
Lemma negotiate_sent (n : Z) (w : world) :
  exists reqs,
    sent (w_log (snd (negotiate urlopen redirect_url n w)))
    = (sent (w_log w) ++ reqs)%list
    /\ Forall (transfer_request redirect_url) reqs.
Proof.
  assert (Hrange : transfer_request redirect_url
                     (Request redirect_url (range_header n))).
  { split; [done|]. right. by eexists. }
  assert (Hplain : transfer_request redirect_url (Request redirect_url [])).
  { split; [done|]. by left. }
  unfold negotiate. destruct (0 <? n).
  - rewrite bind_run. prim. fold (range_header n).
    destruct (urlopen (Request redirect_url (range_header n))) as [e|r]; prim.
    { eexists. rewrite sent_app. split; [done|]. by constructor. }
    destruct (status r =? 206); prim.
    { eexists. rewrite !sent_app, app_nil_r. split; [done|]. by constructor. }
    destruct (status r =? 200); prim.
    + destruct (urlopen (Request redirect_url [])) as [e|r']; prim;
        (exists [Request redirect_url (range_header n); Request redirect_url []];
         rewrite !sent_app; simpl; rewrite <- !app_assoc; split; [done|];
         do 2 (constructor; [assumption|]); constructor).
    + eexists. rewrite sent_app. split; [done|]. by constructor.
  - rewrite bind_run. prim.
    destruct (urlopen (Request redirect_url [])) as [e|r]; prim;
      (eexists; rewrite sent_app; split; [done|]; by constructor).
Qed.

(** A failure of the range request is the failure of the negotiation. *)
Lemma negotiate_fails (n : Z) (e : exn) (w : world) :
  0 < n ->
  urlopen (Request redirect_url (range_header n)) = inl e ->
  negotiate urlopen redirect_url n w
  = (inl e, log_event (EvUrlopen (Request redirect_url (range_header n))) w).
Proof.
  intros Hn Hresp. unfold negotiate, range_header in *.
  destruct (Z.ltb_spec 0 n); [|lia].
  rewrite bind_run. prim. by rewrite Hresp.
Qed.

(** With a resume offset, the first request of the negotiation is the
    range request, whatever follows. *)
Lemma negotiate_asks_range (n : Z) (w : world) :
  0 < n ->
  exists reqs,
    sent (w_log (snd (negotiate urlopen redirect_url n w)))
    = (sent (w_log w) ++ Request redirect_url (range_header n) :: reqs)%list.
Proof.
  intros Hn. unfold negotiate. destruct (Z.ltb_spec 0 n); [|lia].
  rewrite bind_run. prim. fold (range_header n).
  destruct (urlopen (Request redirect_url (range_header n))) as [e|r]; prim.
  { exists []. by rewrite sent_app. }
  destruct (status r =? 206); prim.
  { exists []. by rewrite !sent_app, app_nil_r. }
  destruct (status r =? 200); prim.
  - destruct (urlopen (Request redirect_url [])) as [e|r']; prim;
      (exists [Request redirect_url []]; rewrite !sent_app; simpl;
       by rewrite <- !app_assoc).
  - exists []. by rewrite sent_app.
Qed.

End Negotiation.

(** ** Splitting a string *)

Lemma append_nil_l (s : string) : EmptyString +:+ s = s.
Proof. reflexivity. Qed.

Lemma append_cons (c : ascii) (s t : string) : String c s +:+ t = String c (s +:+ t).
Proof. reflexivity. Qed.

Lemma startswith_app (sep rest : string) : Str.startswith (sep +:+ rest) sep = true.
Proof.
  induction sep as [|c sep IH]; [done|].
  rewrite append_cons. simpl. by rewrite Ascii.eqb_refl.
Qed.

Lemma drop_app (sep rest : string) : Str.drop (String.length sep) (sep +:+ rest) = rest.
Proof.
  induction sep as [|c sep IH]; [by destruct rest|].
  rewrite append_cons. simpl. done.
Qed.

Lemma split_once_unfold (sep s : string) :
  Str.split_once sep s
  = if Str.startswith s sep then Some (EmptyString, Str.drop (String.length sep) s)
    else match s with
         | EmptyString => None
         | String c s' =>
             match Str.split_once sep s' with
             | Some (a, b) => Some (String c a, b)
             | None => None
             end
         end.
Proof. by destruct s. Qed.

(** [split_once] cuts at the first occurrence: if [sep] starts at no
    position inside [before], then [before +:+ sep +:+ rest] is cut into
    [before] and [rest]. *)
Lemma split_once_first (sep before rest : string) :
  (forall b1 b2, before = b1 +:+ b2 -> b2 <> EmptyString ->
                 Str.startswith (b2 +:+ sep +:+ rest) sep = false) ->
  Str.split_once sep (before +:+ sep +:+ rest) = Some (before, rest).
Proof.
  induction before as [|c before IH]; intros Hfirst.
  - rewrite split_once_unfold, append_nil_l.
    by rewrite startswith_app, drop_app.
  - rewrite split_once_unfold.
    rewrite (Hfirst EmptyString (String c before)); [|done|done].
    rewrite append_cons, IH; [done|].
    intros b1 b2 -> Hne. by apply (Hfirst (String c b1) b2).
Qed.

Lemma drop_length (n : nat) (s : string) :
  (String.length (Str.drop n s) <= String.length s)%nat.
Proof.
  revert s. induction n as [|n IH]; intros s; [done|].
  destruct s as [|c s]; simpl; [lia|]. specialize (IH s). lia.
Qed.

Lemma split_once_shorter (sep s a b : string) :
  sep <> EmptyString ->
  Str.split_once sep s = Some (a, b) -> (String.length b < String.length s)%nat.
Proof.
  intros Hsep. revert a. induction s as [|c s IH]; intros a.
  - rewrite split_once_unfold. destruct sep; [done|]. simpl. done.
  - rewrite split_once_unfold. destruct (Str.startswith (String c s) sep).
    + intros [= <- <-]. destruct sep as [|d sep]; [done|]. simpl.
      pose proof (drop_length (String.length sep) s). lia.
    + destruct (Str.split_once sep s) as [[a' b']|]; [|done].
      intros [= <- <-]. specialize (IH a' eq_refl). simpl. lia.
Qed.

(** The second element of [s.split(sep)] is the piece after the first
    [sep]; there is none when [sep] does not occur. *)
Lemma split_index_1 (s sep : string) :
  sep <> EmptyString -> Str.split s sep !! 1%nat = piece_after sep s.
Proof.
  intros Hsep. unfold Str.split, piece_after.
  destruct (String.length s) as [|fuel] eqn:Hlen.
  - destruct s; [|done]. rewrite split_once_unfold.
    destruct sep; [done|]. done.
  - simpl. destruct (Str.split_once sep s) as [[a b]|] eqn:Hcut; [|done].
    simpl. destruct fuel as [|fuel].
    + apply split_once_shorter in Hcut; [|done].
      destruct b; [|simpl in Hcut; lia].
      rewrite split_once_unfold. destruct sep; [done|]. done.
    + simpl. by destruct (Str.split_once sep b) as [[p q]|].
Qed.

(** ** The resolver *)

Section Resolver.

Variable opener_open : request -> exn + response.
Variable urlparse_rejects : string -> option string.
Variable invalid_literal : string -> string.

(** The resolver touches no file, sends exactly the resolution request,
    and that request carries the credentials. *)
Lemma resolve_frame (url token : string) (w : world) :
  let w' := snd (resolve opener_open urlparse_rejects url token w) in
  w_files w' = w_files w
  /\ exists evs, w_log w' = (w_log w ++ EvOpen (Request url (credentials token)) :: evs)%list
                 /\ sent evs = [].
Proof.
  unfold resolve. cbv zeta. rewrite bind_run. prim. fold (credentials token).
  destruct (opener_open (Request url (credentials token))) as [e|resp]; prim.
  { repeat split; try done. by exists []. }
  destruct (is_redirect (status resp)).
  - destruct (getheader resp "Location") as [loc|]; prim.
    + destruct (urlparse_rejects loc); prim.
      { repeat split; try done. exists [EvGetHeader "Location"].
        by rewrite <- app_assoc. }
      destruct (Url.first_value _ _) as [cd|]; [destruct (Str.truthy cd);
        [destruct (Str.split cd "filename=" !! 1%nat)|]|]; prim;
        (repeat split; try done; exists [EvGetHeader "Location"];
         by rewrite <- app_assoc).
    + repeat split; try done. exists [EvGetHeader "Location"].
      by rewrite <- app_assoc.
  - destruct (status resp =? 404); prim; (repeat split; try done; by exists []).
Qed.

End Resolver.

Lemma headers_read_app (l1 l2 : list event) :
  headers_read (l1 ++ l2) = (headers_read l1 ++ headers_read l2)%list.
Proof.
  induction l1 as [|ev l1 IH]; [done|].
  destruct ev; simpl; by rewrite ?IH.
Qed.

Section ResolverStatuses.

Variable opener_open : request -> exn + response.
Variable urlopen : request -> exn + response.
Variable urlparse_rejects : string -> option string.
Variable invalid_literal : string -> string.

Lemma download_file_resolve_fails (url output_path token : string) (w w' : world) (e : exn) :
  resolve opener_open urlparse_rejects url token w = (inl e, w') ->
  download_file opener_open urlopen urlparse_rejects invalid_literal url output_path token w
    = (inl e, w').
Proof. intros H. unfold download_file. by rewrite (bind_fail _ _ _ _ _ H). Qed.

Lemma download_file_resolve_ok (url output_path token : string) (w w' : world)
    (redirect_url filename : string) :
  resolve opener_open urlparse_rejects url token w = (inr (redirect_url, filename), w') ->
  download_file opener_open urlopen urlparse_rejects invalid_literal url output_path token w
  = transfer urlopen invalid_literal redirect_url filename output_path w'.
Proof. intros H. unfold download_file. by rewrite (bind_ok _ _ _ _ _ H). Qed.

(** C5, as the code has it: when the resolution response is no redirect,
    [download_file] raises before any header is read: [FileNotFoundError]
    on status 404, and on every other status a [RuntimeError] whose
    message is one fixed text. *)
Theorem download_file_no_redirect (url output_path token : string) (w : world)
    (resp : response) :
  opener_open (Request url (credentials token)) = inr resp ->
  is_redirect (status resp) = false ->
  let w' := log_event (EvOpen (Request url (credentials token))) w in
  headers_read (w_log w') = headers_read (w_log w)
  /\ (status resp = 404 ->
      download_file opener_open urlopen urlparse_rejects invalid_literal url output_path token w
      = (inl (FileNotFoundError "File not found"), w'))
  /\ (status resp <> 404 ->
      download_file opener_open urlopen urlparse_rejects invalid_literal url output_path token w
      = (inl (RuntimeError "No redirect found, something went wrong"), w')).
Proof.
  intros Hresp Hred w'. split.
  { subst w'. simpl. by rewrite headers_read_app, app_nil_r. }
  assert (Hres : resolve opener_open urlparse_rejects url token w
                 = ((if status resp =? 404
                     then raise (FileNotFoundError "File not found")
                     else raise (RuntimeError "No redirect found, something went wrong"))
                    : M (string * string)) w').
  { unfold resolve. cbv zeta. rewrite bind_run. prim. fold (credentials token).
    rewrite Hresp. prim. by rewrite Hred. }
  split; intros Hst; apply download_file_resolve_fails; rewrite Hres.
  - by rewrite Hst.
  - by destruct (Z.eqb_spec (status resp) 404).
Qed.

(** X14: on a redirect whose [Location] carries a
    [response-content-disposition] parameter that contains [filename=],
    the resolver returns the [Location] and, as file name, the piece of
    the parameter value after [filename=], stripped of double quotes and
    then percent-decoded once more; when the parameter is absent it
    raises [ValueError].  The last part says the same for a value written
    as [before +:+ "filename=" +:+ piece], where [filename=] starts
    nowhere in [before] and does not occur in [piece]. *)
Theorem resolve_redirect (url token : string) (w : world) (resp : response)
    (location : string) :
  opener_open (Request url (credentials token)) = inr resp ->
  is_redirect (status resp) = true ->
  getheader resp "Location" = Some location ->
  urlparse_rejects location = None ->
  let w' := log_event (EvGetHeader "Location")
              (log_event (EvOpen (Request url (credentials token))) w) in
  let disposition :=
    Url.first_value "response-content-disposition"
      (Url.parse_qsl (Url.query location)) in
  (disposition = None ->
   resolve opener_open urlparse_rejects url token w
   = (inl (ValueError "Unable to determine filename"), w'))
  /\ (forall cd piece : string,
        disposition = Some cd ->
        piece_after "filename=" cd = Some piece ->
        resolve opener_open urlparse_rejects url token w
        = (inr (location, Url.unquote (Str.strip_char piece DQUOTE)), w'))
  /\ (forall before piece : string,
        disposition = Some (before +:+ "filename=" +:+ piece) ->
        (forall b1 b2, before = b1 +:+ b2 -> b2 <> EmptyString ->
                       Str.startswith (b2 +:+ "filename=" +:+ piece) "filename=" = false) ->
        Str.split_once "filename=" piece = None ->
        resolve opener_open urlparse_rejects url token w
        = (inr (location, Url.unquote (Str.strip_char piece DQUOTE)), w')).
Proof.
  intros Hresp Hred Hloc Hurl w' disposition.
  assert (Hres : resolve opener_open urlparse_rejects url token w
    = match disposition with
      | Some cd =>
          if Str.truthy cd then
            match Str.split cd "filename=" !! 1%nat with
            | Some piece => (inr (location, Url.unquote (Str.strip_char piece DQUOTE)), w')
            | None => (inl (IndexError "list index out of range"), w')
            end
          else (inl (ValueError "Unable to determine filename"), w')
      | None => (inl (ValueError "Unable to determine filename"), w')
      end).
  { unfold resolve. cbv zeta. rewrite bind_run. prim. fold (credentials token).
    rewrite Hresp. prim. rewrite Hred, Hloc. prim. rewrite Hurl. prim.
    fold disposition. destruct disposition as [cd|]; [|done].
    destruct (Str.truthy cd); [|done].
    by destruct (Str.split cd "filename=" !! 1%nat). }
  assert (Hpiece_ok : forall cd piece : string,
            disposition = Some cd ->
            piece_after "filename=" cd = Some piece ->
            resolve opener_open urlparse_rejects url token w
            = (inr (location, Url.unquote (Str.strip_char piece DQUOTE)), w')).
  { intros cd piece Hcd Hpiece. rewrite Hres, Hcd.
    rewrite split_index_1, Hpiece by done.
    destruct cd; [discriminate Hpiece | done]. }
  split; [|split].
  - intros Hnone. by rewrite Hres, Hnone.
  - exact Hpiece_ok.
  - intros before piece Hcd Hfirst Hlast.
    apply (Hpiece_ok _ piece Hcd). unfold piece_after.
    by rewrite (split_once_first _ _ _ Hfirst), Hlast.
Qed.

End ResolverStatuses.

Lemma download_file_no_redirect_witness :
  download_file (answer (status_only 404)) (answer (status_only 404)) accepts_all quoted_literal
    model_id_url "." "secret" empty_world
  = (inl (FileNotFoundError "File not found"),
     log_event (EvOpen (Request model_id_url (credentials "secret"))) empty_world)
  /\ download_file (answer (status_only 500)) (answer (status_only 500)) accepts_all quoted_literal
       model_id_url "." "secret" empty_world
     = (inl (RuntimeError "No redirect found, something went wrong"),
        log_event (EvOpen (Request model_id_url (credentials "secret"))) empty_world).
Proof.
  split.
  - apply (proj1 (proj2 (download_file_no_redirect
             (answer (status_only 404)) (answer (status_only 404))
             accepts_all quoted_literal model_id_url "." "secret" empty_world (status_only 404)
             eq_refl eq_refl))). reflexivity.
  - apply (proj2 (proj2 (download_file_no_redirect
             (answer (status_only 500)) (answer (status_only 500))
             accepts_all quoted_literal model_id_url "." "secret" empty_world (status_only 500)
             eq_refl eq_refl))). discriminate.
Defined.

(** C5 as the specification words it fails: the error raised on the
    other statuses does not carry the status code.  Statuses 500 and 503
    raise the same exception, so no function recovers the status from
    it. *)
Lemma download_file_error_hides_status :
  ~ exists code : exn -> Z,
      forall st : Z, is_redirect st = false -> st <> 404 ->
        exists e : exn,
          fst (download_file (answer (status_only st)) (answer (status_only st))
                 accepts_all quoted_literal model_id_url "." "secret" empty_world) = inl e
          /\ code e = st.
Proof.
  intros (code & H).
  destruct (H 500 eq_refl ltac:(discriminate)) as (e1 & H1 & C1).
  destruct (H 503 eq_refl ltac:(discriminate)) as (e2 & H2 & C2).
  vm_compute in H1, H2. congruence.
Qed.

Lemma resolve_redirect_witness :
  resolve (answer (redirect_to mock_location)) accepts_all model_id_url "secret" empty_world
  = (inr (mock_location, "model.safetensors"),
     log_event (EvGetHeader "Location")
       (log_event (EvOpen (Request model_id_url (credentials "secret"))) empty_world)).
Proof.
  pose proof (proj1 (proj2 (resolve_redirect (answer (redirect_to mock_location))
                accepts_all model_id_url "secret" empty_world
                (redirect_to mock_location) mock_location
                eq_refl eq_refl eq_refl eq_refl))) as H.
  specialize (H (Url.unquote "attachment%3B%20filename%3D%22model.safetensors%22")
                (String DQUOTE ("model.safetensors" +:+ String DQUOTE ""))).
  rewrite H; vm_compute; reflexivity.
Defined.

(** C6, the input on which the code fails it: a redirect whose disposition
    parameter is present but holds no [filename=].  The code takes the
    second element of [split('filename=')], which is not there, and
    raises [IndexError]: neither a file name nor the error it raises
    itself, two lines below, when it cannot determine the file name. *)
Lemma resolve_disposition_without_filename :
  Url.first_value "response-content-disposition"
    (Url.parse_qsl (Url.query inline_location)) = Some "inline"
  /\ fst (resolve (answer (redirect_to inline_location)) accepts_all
            model_id_url "secret" empty_world)
     = inl (IndexError "list index out of range").
Proof. split; vm_compute; reflexivity. Qed.

(** ** Streaming to the file *)

Section Streaming.

Variable invalid_literal : string -> string.
Variables (filename output_file : string) (resume_byte_pos : Z) (resp : response).

Lemma stream_to_file_ok (w : world) :
  header_is_number resp ->
  body_error resp = None ->
  (expected_total resume_byte_pos resp = Some 0 -> body resp = []) ->
  exists w',
    stream_to_file invalid_literal filename output_file resume_byte_pos resp w
    = (inr (Summary output_file (mode_for resume_byte_pos)
              (expected_total resume_byte_pos resp)
              (resume_byte_pos + Z.of_nat (length (body resp)))), w')
    /\ w_files w'
       = <[output_file := (starting_content resume_byte_pos (w_files w !! output_file)
                           ++ body resp)%list]> (w_files w)
    /\ sent (w_log w') = sent (w_log w).
Proof.
  intros Hnum Heof Hzero.
  unfold stream_to_file, expected_total, declared_length, starting_content,
    mode_for in *.
  prim. rewrite Heof.
  assert (Hfinish : forall total old w1,
    (total = Some 0 -> body resp = []) ->
    w_files w1 = <[output_file := old]> (w_files w) ->
    sent (w_log w1) = sent (w_log w) ->
    exists w2,
      stream_loop filename output_file total (read_chunks CHUNK_SIZE (body resp))
        None resume_byte_pos w1
      = (inr (resume_byte_pos + Z.of_nat (length (body resp))), w2)
      /\ w_files w2 = <[output_file := (old ++ body resp)%list]> (w_files w)
      /\ sent (w_log w2) = sent (w_log w)).
  { intros total old w1 Hz Hf Hs.
    destruct (stream_loop_ok filename output_file total
                (read_chunks CHUNK_SIZE (body resp))
                (read_chunks_nonempty _ _ CHUNK_SIZE_pos)) with
      (downloaded := resume_byte_pos) (w := w1) (old := old)
      as (w2 & Hloop & Hf2 & Hs2).
    { intros H0. by rewrite (Hz H0). }
    { rewrite Hf. apply lookup_insert_eq. }
    rewrite read_chunks_concat in Hloop, Hf2 by apply CHUNK_SIZE_pos.
    exists w2. split; [done|].
    rewrite Hf2, Hf, insert_insert_eq. split; [done|]. congruence. }
  destruct (getheader resp "Content-Length") as [text|] eqn:Hcl.
  - destruct (Hnum text Hcl) as [n Hn]. simpl in *. rewrite Hn in *. simpl in *.
    destruct (0 <? resume_byte_pos); destruct (status resp =? 206); simpl in *; prim;
      (match goal with
       | |- context [stream_loop _ _ ?t _ None _ ?w1] =>
           edestruct (Hfinish t _ w1 Hzero eq_refl)
             as (w2 & Hloop & Hf2 & Hs2);
           [ simpl; by rewrite !sent_app, !app_nil_r |]
       end;
       rewrite Hloop; eexists; split; [reflexivity|]; simpl;
       rewrite !sent_app, !app_nil_r; done).
  - simpl in *.
    destruct (0 <? resume_byte_pos); simpl in *; prim;
      (match goal with
       | |- context [stream_loop _ _ ?t _ None _ ?w1] =>
           edestruct (Hfinish t _ w1 Hzero eq_refl)
             as (w2 & Hloop & Hf2 & Hs2);
           [ simpl; by rewrite !sent_app, !app_nil_r |]
       end;
       rewrite Hloop; eexists; split; [reflexivity|]; simpl;
       rewrite !sent_app, !app_nil_r; done).
Qed.

(** A run that returns had a well-formed header, a stream that ended, and
    no division by zero. *)
Lemma stream_to_file_inv (w w' : world) (s : summary) :
  stream_to_file invalid_literal filename output_file resume_byte_pos resp w = (inr s, w') ->
  header_is_number resp
  /\ body_error resp = None
  /\ (expected_total resume_byte_pos resp = Some 0 -> body resp = []).
Proof.
  unfold stream_to_file, expected_total, declared_length, header_is_number.
  prim.
  assert (Hloop : forall total d w1 r w2,
    stream_loop filename output_file total (read_chunks CHUNK_SIZE (body resp))
      (body_error resp) d w1 = (inr r, w2) ->
    body_error resp = None /\ (total = Some 0 -> body resp = [])).
  { intros total d w1 r w2 H.
    apply stream_loop_inv in H as [-> Hz]; [|apply read_chunks_nonempty, CHUNK_SIZE_pos].
    split; [done|]. intros H0. specialize (Hz H0).
    rewrite <- (read_chunks_concat CHUNK_SIZE (body resp) CHUNK_SIZE_pos). by rewrite Hz. }
  destruct (getheader resp "Content-Length") as [text|] eqn:Hcl; simpl.
  - destruct (PyInt.int text) as [n|] eqn:Hn; simpl; [|done].
    destruct (0 <? resume_byte_pos); destruct (status resp =? 206); simpl; prim;
      (match goal with
       | |- context [stream_loop ?a ?b ?c ?d ?e ?f ?g] =>
           destruct (stream_loop a b c d e f g) as [[err|r] w2] eqn:Hrun; [done|]
       end;
       intros _; apply Hloop in Hrun as [? ?];
       split; [by intros ? [= <-]; eexists | done]).
  - destruct (0 <? resume_byte_pos); simpl; prim;
      match goal with
      | |- context [stream_loop ?a ?b ?c ?d ?e ?f ?g] =>
          destruct (stream_loop a b c d e f g) as [[err|r] w2] eqn:Hrun; [done|]
      end;
      intros _; apply Hloop in Hrun as [? ?]; (split; [intros ? [=] | done]).
Qed.

End Streaming.

(** ** The transfer *)

Lemma after_check_frame (output_path path : string) (w : world) :
  w_files (after_check output_path path w) = w_files w
  /\ sent (w_log (after_check output_path path w)) = sent (w_log w).
Proof.
  unfold after_check. destruct (w_files w !! path); simpl;
    rewrite !sent_app, !app_nil_r; done.
Qed.

Section Transfer.

Variable opener_open : request -> exn + response.
Variable urlopen : request -> exn + response.
Variable urlparse_rejects : string -> option string.
Variable invalid_literal : string -> string.

Lemma transfer_unfold (redirect_url filename output_path : string) (w : world) :
  transfer urlopen invalid_literal redirect_url filename output_path w
  = (negotiate urlopen redirect_url (found_size w (path_join output_path filename))
       ≫= fun '(resume_byte_pos, response) =>
            stream_to_file invalid_literal filename (path_join output_path filename)
              resume_byte_pos response)
      (after_check output_path (path_join output_path filename) w).
Proof.
  unfold transfer, found_size, after_check. cbv zeta. prim.
  destruct (w_files w !! path_join output_path filename) eqn:Hfile;
    simpl; prim; rewrite ?Hfile; reflexivity.
Qed.


(** C2: a local file of [N > 0] bytes, and a server that answers the
    range request with status 200.  Then the engine asks again without a
    range, opens the file for overwriting, takes the [Content-Length] of
    the new response as the total, and the file ends up holding exactly
    the new body. *)
Theorem download_file_restart_200
    (url output_path token redirect_url filename text : string)
    (w w1 : world) (old : list Byte.byte) (resp fresh : response) (L : Z) :
  let output_file := path_join output_path filename in
  let N := Z.of_nat (length old) in
  resolve opener_open urlparse_rejects url token w = (inr (redirect_url, filename), w1) ->
  w_files w !! output_file = Some old ->
  0 < N ->
  urlopen (Request redirect_url (range_header N)) = inr resp ->
  status resp = 200 ->
  urlopen (Request redirect_url []) = inr fresh ->
  getheader fresh "Content-Length" = Some text ->
  PyInt.int text = Some L ->
  Z.of_nat (length (body fresh)) = L ->
  body_error fresh = None ->
  exists w',
    download_file opener_open urlopen urlparse_rejects invalid_literal url output_path token w
    = (inr (Summary output_file wb (Some L) L), w')
    /\ w_files w' = <[output_file := body fresh]> (w_files w)
    /\ w_files w' !! output_file = Some (body fresh).
Proof.
  intros output_file N Hres Hold HN Hresp Hst Hfresh Hcl Hint Hlen Heof.
  pose proof (resolve_frame opener_open urlparse_rejects url token w) as Hframe.
  rewrite Hres in Hframe. simpl in Hframe. destruct Hframe as (Hf1 & _ & _).
  rewrite (download_file_resolve_ok _ _ _ _ _ _ _ _ _ _ _ Hres), transfer_unfold.
  fold output_file. unfold found_size. rewrite Hf1, Hold. fold N.
  erewrite bind_ok by (by eapply negotiate_200).
  assert (Htotal : expected_total 0 fresh = Some L).
  { unfold expected_total, declared_length. rewrite Hcl. simpl. by rewrite Hint. }
  edestruct (stream_to_file_ok invalid_literal filename output_file 0 fresh)
    as (w' & Hrun & Hf & _).
  - intros t Ht. rewrite Hcl in Ht. injection Ht as <-. by eexists.
  - exact Heof.
  - rewrite Htotal. intros [= H0]. destruct (body fresh); [done | simpl in Hlen; lia].
  - rewrite Hrun. exists w'. split.
    + rewrite Htotal, Hlen. reflexivity.
    + assert (Hfiles : w_files w' = <[output_file := body fresh]> (w_files w)).
      { rewrite Hf. cbn [w_files log_event].
        destruct (after_check_frame output_path output_file w1) as (-> & _).
        by rewrite Hf1. }
      split; [done|]. rewrite Hfiles. apply lookup_insert_eq.
Qed.

End Transfer.

Section TransferFacts.

Variable opener_open : request -> exn + response.
Variable urlopen : request -> exn + response.
Variable urlparse_rejects : string -> option string.
Variable invalid_literal : string -> string.

(** A complete local file of [N > 0] bytes and an answer of status 206
    with an empty body: the run returns, no byte is written, and the file
    system is what it was. *)
Lemma nothing_to_append
    (url output_path token redirect_url filename : string)
    (w w1 : world) (old : list Byte.byte) (resp : response) :
  let output_file := path_join output_path filename in
  let N := Z.of_nat (length old) in
  resolve opener_open urlparse_rejects url token w = (inr (redirect_url, filename), w1) ->
  w_files w !! output_file = Some old ->
  0 < N ->
  urlopen (Request redirect_url (range_header N)) = inr resp ->
  status resp = 206 ->
  body resp = [] ->
  body_error resp = None ->
  header_is_number resp ->
  exists w',
    download_file opener_open urlopen urlparse_rejects invalid_literal url output_path token w
    = (inr (Summary output_file ab ((fun L => L + N) <$> declared_length resp) N), w')
    /\ w_files w' = w_files w
    /\ w_log w'
       = (w_log w1 ++
          [EvMakedirs output_path;
           EvOut (OutFound N);
           EvUrlopen (Request redirect_url (range_header N));
           EvOut (OutLine "Server supports resume, continuing download...");
           EvGetHeader "Content-Length";
           EvFileOpen output_file ab;
           EvOut OutNewline;
           EvOut (OutLine ("Download completed. File saved as: " +:+ filename));
           EvOut OutElapsed])%list.
Proof.
  intros output_file N Hres Hold HN Hresp Hst Hbody Heof Hnum.
  pose proof (resolve_frame opener_open urlparse_rejects url token w) as Hframe.
  rewrite Hres in Hframe. simpl in Hframe. destruct Hframe as (Hf1 & _ & _).
  rewrite (download_file_resolve_ok _ _ _ _ _ _ _ _ _ _ _ Hres), transfer_unfold.
  fold output_file. unfold found_size, after_check. rewrite Hf1, Hold. fold N.
  erewrite bind_ok by (by apply negotiate_206).
  unfold stream_to_file, declared_length. prim. rewrite Hbody, Heof, Hst.
  destruct (Z.ltb_spec 0 N); [|lia]. simpl.
  destruct (getheader resp "Content-Length") as [text|] eqn:Hcl.
  - destruct (Hnum text Hcl) as [n Hn]. simpl. rewrite !Hn. simpl. prim.
    rewrite Hf1, Hold. simpl.
    eexists. split; [reflexivity|]. simpl.
    split; [by apply insert_id|]. by rewrite <- !app_assoc.
  - simpl. prim. rewrite Hf1, Hold. simpl.
    eexists. split; [reflexivity|]. simpl.
    split; [by apply insert_id|]. by rewrite <- !app_assoc.
Qed.

(** The streaming part sends nothing, whatever its outcome. *)
Lemma stream_to_file_sent (filename output_file : string) (n : Z) (resp : response)
    (w : world) :
  sent (w_log (snd (stream_to_file invalid_literal filename output_file n resp w)))
    = sent (w_log w).
Proof.
  unfold stream_to_file. prim.
  assert (Hgo : forall total (w1 : world) (mode : file_mode),
    sent (w_log w1) = sent (w_log w) ->
    sent (w_log (snd
      (let (s, w'0) := stream_loop filename output_file total
                         (read_chunks CHUNK_SIZE (body resp)) (body_error resp) n w1 in
       match s with
       | inl e => (inl e, w'0)
       | inr x =>
           (inr (Summary output_file mode total x),
            log_event (EvOut OutElapsed)
              (log_event (EvOut (OutLine ("Download completed. File saved as: " +:+ filename)))
                 (log_event (EvOut OutNewline) w'0)))
       end))) = sent (w_log w)).
  { intros total w1 mode H1.
    pose proof (stream_loop_sent filename output_file total
                  (read_chunks CHUNK_SIZE (body resp)) (body_error resp) n w1) as Hs.
    destruct (stream_loop _ _ _ _ _ _ _) as [[e|r] w2]; simpl in *.
    - congruence.
    - rewrite !sent_app, !app_nil_r. congruence. }
  destruct (getheader resp "Content-Length") as [text|]; simpl.
  - destruct (PyInt.int text) as [k|]; simpl;
      [|by rewrite sent_app, app_nil_r].
    destruct (0 <? n); destruct (status resp =? 206); simpl; prim;
      apply Hgo; simpl; by rewrite !sent_app, !app_nil_r.
  - destruct (0 <? n); simpl; prim;
      apply Hgo; simpl; by rewrite !sent_app, !app_nil_r.
Qed.

Lemma transfer_sent (redirect_url filename output_path : string) (w : world) :
  exists reqs,
    sent (w_log (snd (transfer urlopen invalid_literal redirect_url filename output_path w)))
    = (sent (w_log w) ++ reqs)%list
    /\ Forall (transfer_request redirect_url) reqs.
Proof.
  rewrite transfer_unfold, bind_run.
  set (path := path_join output_path filename).
  destruct (negotiate_sent urlopen redirect_url (found_size w path)
              (after_check output_path path w)) as (reqs & Hsent & Hall).
  destruct (after_check_frame output_path path w) as (_ & Hs0).
  rewrite Hs0 in Hsent. exists reqs. split; [|done].
  destruct (negotiate _ _ _ _) as [[e|[n resp]] w2]; simpl in *; [done|].
  by rewrite stream_to_file_sent.
Qed.

End TransferFacts.

(** ** The requests of a run *)

Lemma resolution_request_carries_credentials (url token : string) :
  carries_credentials token (Request url (credentials token)) = true.
Proof.
  unfold carries_credentials, has_header, credentials. simpl.
  by rewrite !String.eqb_refl.
Qed.

Lemma transfer_request_without_credentials (token redirect_url : string) (r : request) :
  transfer_request redirect_url r -> carries_credentials token r = false.
Proof.
  intros [_ [H|[n H]]]; unfold carries_credentials, has_header; by rewrite H.
Qed.

(** ** The token file *)

Lemma universal_newlines_empty (s : string) :
  Str.truthy (universal_newlines s) = Str.truthy s.
Proof.
  destruct s as [|c s]; [done|]. simpl. by destruct (Ascii.eqb c CR).
Qed.

(** A text without a carriage return is read as it is. *)
Lemma universal_newlines_plain (s : string) :
  has_cr s = false -> universal_newlines s = s.
Proof.
  unfold has_cr. induction s as [|c s IH]; [done|]. simpl.
  destruct (Ascii.eqb c CR); [done|]. simpl. intros H. by rewrite IH.
Qed.

Lemma decode_well_formed (data : list Byte.byte) :
  Utf8.well_formed (string_of_list_byte data) = true ->
  Utf8.decode data = inr (string_of_list_byte data).
Proof.
  unfold Utf8.well_formed, Utf8.decode. cbv zeta.
  by destruct (Utf8.first_error 0 (Utf8.scan (string_of_list_byte data))).
Qed.

Lemma decode_malformed (data : list Byte.byte) :
  Utf8.well_formed (string_of_list_byte data) = false ->
  exists msg, Utf8.decode data = inl msg.
Proof.
  unfold Utf8.well_formed, Utf8.decode. cbv zeta.
  destruct (Utf8.first_error 0 (Utf8.scan (string_of_list_byte data))) as [msg|];
    [by exists msg | done].
Qed.

Lemma get_token_readable (TOKEN_FILE : string) (w : world) :
  token_readable TOKEN_FILE w = true ->
  get_token TOKEN_FILE w = (inr (stored_token TOKEN_FILE w), w).
Proof.
  unfold token_readable, stored_token, token_bytes. prim.
  destruct (w_files w !! TOKEN_FILE) as [data|]; [|done].
  intros Hok. by rewrite Hok, (decode_well_formed data Hok).
Qed.

Lemma get_token_unreadable (TOKEN_FILE : string) (w : world) :
  token_readable TOKEN_FILE w = false ->
  exists msg, get_token TOKEN_FILE w = (inl (UnicodeDecodeError msg), w).
Proof.
  unfold token_readable, token_bytes. prim.
  destruct (w_files w !! TOKEN_FILE) as [data|]; [|done].
  intros Hbad. destruct (decode_malformed data Hbad) as [msg Hmsg].
  exists msg. by rewrite Hmsg.
Qed.

(** A typed text that is stored is read back with its line endings
    translated, and with nothing else changed. *)
Lemma stored_token_prompted (typed_token TOKEN_FILE : string) (w : world) :
  Utf8.well_formed typed_token = true ->
  token_readable TOKEN_FILE (prompted typed_token TOKEN_FILE w) = true
  /\ stored_token TOKEN_FILE (prompted typed_token TOKEN_FILE w)
     = Some (universal_newlines typed_token).
Proof.
  intros Hok. unfold token_readable, stored_token, token_bytes, prompted. simpl.
  by rewrite lookup_insert_eq, string_of_list_byte_of_string, Hok.
Qed.

Section Runs.

Variable opener_open : request -> exn + response.
Variable urlopen : request -> exn + response.
Variable urlparse_rejects : string -> option string.
Variable invalid_literal : string -> string.
Variable typed_token : string.
Variable TOKEN_FILE : string.

Lemma download_file_sent (url output_path token : string) (w : world) :
  exists reqs,
    sent (w_log (snd (download_file opener_open urlopen urlparse_rejects invalid_literal
                        url output_path token w)))
    = (sent (w_log w) ++ Request url (credentials token) :: reqs)%list
    /\ Forall (fun r => exists redirect_url, transfer_request redirect_url r) reqs.
Proof.
  unfold download_file. rewrite bind_run.
  destruct (resolve_frame opener_open urlparse_rejects url token w)
    as (_ & evs & Hlog & Hevs).
  destruct (resolve _ _ _ _ _) as [[e|[redirect_url filename]] w1]; simpl in *.
  - exists []. rewrite Hlog, sent_app. simpl. rewrite Hevs. done.
  - destruct (transfer_sent urlopen invalid_literal redirect_url filename output_path w1)
      as (reqs & Hsent & Hall).
    exists reqs. rewrite Hsent, Hlog, sent_app. simpl. rewrite Hevs.
    rewrite <- app_assoc. split; [done|].
    eapply Forall_impl; [exact Hall|]. intros r Hr. by exists redirect_url.
Qed.

Lemma main_unfold (args_url args_output_path : string) (w : world) :
  token_readable TOKEN_FILE w = true ->
  main opener_open urlopen urlparse_rejects invalid_literal typed_token TOKEN_FILE
    args_url args_output_path w
  = try_except
      (download_file opener_open urlopen urlparse_rejects invalid_literal
         (normalize_url args_url) args_output_path
         (session_token typed_token TOKEN_FILE w);; mret tt)
      (fun e => print ("ERROR: " +:+ message e))
      (session_world typed_token TOKEN_FILE w).
Proof.
  intros Hok. unfold main. cbv zeta.
  rewrite (bind_ok _ _ _ _ _ (get_token_readable TOKEN_FILE w Hok)).
  unfold session_token, session_world, prompted, prompt_for_civitai_token.
  destruct (stored_token TOKEN_FILE w) as [t|]; [destruct (Str.truthy t)|];
    rewrite bind_run; prim; reflexivity.
Qed.

(** A token file that is no text ends [main] before anything is sent:
    the error of the read is raised outside the [try]. *)
Lemma main_unreadable (args_url args_output_path : string) (w : world) :
  token_readable TOKEN_FILE w = false ->
  exists msg,
    get_token TOKEN_FILE w = (inl (UnicodeDecodeError msg), w)
    /\ main opener_open urlopen urlparse_rejects invalid_literal typed_token TOKEN_FILE
         args_url args_output_path w
       = (inl (UnicodeDecodeError msg), w).
Proof.
  intros Hbad. destruct (get_token_unreadable TOKEN_FILE w Hbad) as [msg Hmsg].
  exists msg. split; [exact Hmsg|].
  unfold main. by rewrite (bind_fail _ _ _ _ _ Hmsg).
Qed.

(** The first request of [main] carries the token of the session. *)
Lemma main_sent (args_url args_output_path : string) (w : world) :
  token_readable TOKEN_FILE w = true ->
  exists reqs,
    sent (w_log (snd (main opener_open urlopen urlparse_rejects invalid_literal
                        typed_token TOKEN_FILE args_url args_output_path w)))
    = (sent (w_log (session_world typed_token TOKEN_FILE w))
       ++ Request (normalize_url args_url)
            (credentials (session_token typed_token TOKEN_FILE w))
          :: reqs)%list.
Proof.
  intros Hok. rewrite (main_unfold _ _ _ Hok). unfold try_except. rewrite bind_run.
  destruct (download_file_sent (normalize_url args_url) args_output_path
              (session_token typed_token TOKEN_FILE w)
              (session_world typed_token TOKEN_FILE w)) as (reqs & Hsent & _).
  exists reqs.
  destruct (download_file _ _ _ _ _ _ _ _) as [[e|s] w1]; simpl in *.
  - destruct (caught_by_main e); simpl; [|exact Hsent].
    prim. by rewrite sent_app, app_nil_r.
  - exact Hsent.
Qed.

(** C3, as the code has it: the resolution request is the first request of
    a run and carries both headers; every later request goes to the
    content URL with the [Range] header alone or with no header, so with
    neither of the two. *)
Theorem download_file_requests (url output_path token : string) (w : world) :
  exists reqs,
    sent (w_log (snd (download_file opener_open urlopen urlparse_rejects invalid_literal
                        url output_path token w)))
    = (sent (w_log w) ++ Request url (credentials token) :: reqs)%list
    /\ carries_credentials token (Request url (credentials token)) = true
    /\ Forall (fun r =>
                 (req_headers r = [] \/ exists n : Z, req_headers r = range_header n)
                 /\ carries_credentials token r = false) reqs.
Proof.
  destruct (download_file_sent url output_path token w) as (reqs & Hsent & Hall).
  exists reqs. split; [exact Hsent|].
  split; [apply resolution_request_carries_credentials|].
  eapply Forall_impl; [exact Hall|]. intros r [redirect_url Hr]. split.
  - apply Hr.
  - by eapply transfer_request_without_credentials.
Qed.

(** C9, as the code has it: once [main] has its token (the token file,
    when there is one, is a text), an error of one of the classes that
    [main] names (which are those of all the errors the program raises
    itself, and of the failures of the network and of the file system)
    ends the run normally, with one [ERROR:] line after what was printed
    before. *)
Theorem main_reports_caught_error (args_url args_output_path : string)
    (w w' : world) (e : exn) :
  token_readable TOKEN_FILE w = true ->
  download_file opener_open urlopen urlparse_rejects invalid_literal
    (normalize_url args_url) args_output_path
    (session_token typed_token TOKEN_FILE w) (session_world typed_token TOKEN_FILE w)
  = (inl e, w') ->
  caught_by_main e = true ->
  main opener_open urlopen urlparse_rejects invalid_literal typed_token TOKEN_FILE
    args_url args_output_path w
  = (inr tt, log_event (EvOut (OutLine ("ERROR: " +:+ message e))) w').
Proof.
  intros Hok Hrun Hcaught. rewrite (main_unfold _ _ _ Hok). unfold try_except.
  rewrite (bind_fail _ _ _ _ _ Hrun), Hcaught. reflexivity.
Qed.

(** C10, as the code has it: the token file is read as UTF-8 text with
    universal newlines.  When its bytes are a text, [get_token] returns
    that text with every line ending turned into [\n] and nothing else
    changed (so a text without a carriage return comes back as it is,
    white space and final newline included), and when the text is not
    empty the resolution request of [main] carries it after [Bearer ].
    When the bytes are no text, the read raises [UnicodeDecodeError], and
    so does [main]. *)
Theorem stored_token_reaches_header (data : list Byte.byte)
    (args_url args_output_path : string) (w : world) :
  w_files w !! TOKEN_FILE = Some data ->
  let text := string_of_list_byte data in
  (Utf8.well_formed text = true ->
   get_token TOKEN_FILE w = (inr (Some (universal_newlines text)), w)
   /\ (has_cr text = false -> universal_newlines text = text)
   /\ (Str.truthy text = true ->
       exists reqs,
         sent (w_log (snd (main opener_open urlopen urlparse_rejects invalid_literal
                             typed_token TOKEN_FILE args_url args_output_path w)))
         = (sent (w_log w)
            ++ Request (normalize_url args_url)
                 [("Authorization", "Bearer " +:+ universal_newlines text);
                  ("User-Agent", USER_AGENT)]
               :: reqs)%list))
  /\ (Utf8.well_formed text = false ->
      exists msg,
        get_token TOKEN_FILE w = (inl (UnicodeDecodeError msg), w)
        /\ main opener_open urlopen urlparse_rejects invalid_literal typed_token
             TOKEN_FILE args_url args_output_path w
           = (inl (UnicodeDecodeError msg), w)).
Proof.
  intros Hdata text. split.
  - intros Hok.
    assert (Hread : token_readable TOKEN_FILE w = true).
    { unfold token_readable, token_bytes. by rewrite Hdata. }
    assert (Hstored : stored_token TOKEN_FILE w = Some (universal_newlines text)).
    { unfold stored_token, token_bytes. rewrite Hdata. fold text. by rewrite Hok. }
    split; [by rewrite (get_token_readable _ _ Hread), Hstored|].
    split; [apply universal_newlines_plain|].
    intros Htruthy. destruct (main_sent args_url args_output_path w Hread)
      as (reqs & Hsent).
    exists reqs. rewrite Hsent. unfold session_world, session_token.
    by rewrite Hstored, universal_newlines_empty, Htruthy.
  - intros Hbad. apply main_unreadable.
    unfold token_readable, token_bytes. by rewrite Hdata.
Qed.

End Runs.

Section Counting.

Variable opener_open : request -> exn + response.
Variable urlopen : request -> exn + response.
Variable urlparse_rejects : string -> option string.
Variable invalid_literal : string -> string.

(** C8, as the code has it: the engine never compares the byte count with
    the total.  On every run that returns, the file holds what it held
    when streaming began followed by the whole body, the count is the
    length of the file, and a known total is the starting length plus the
    declared length; so the count stays within the total exactly when the
    body is no longer than declared. *)
Theorem download_file_counts_whole_body (url output_path token : string)
    (w w' : world) (s : summary) :
  download_file opener_open urlopen urlparse_rejects invalid_literal url output_path token w
  = (inr s, w') ->
  exists (req : request) (resp : response) (start : list Byte.byte),
    urlopen req = inr resp
    /\ w_files w' !! s_output_file s = Some (start ++ body resp)%list
    /\ s_downloaded s = Z.of_nat (length (start ++ body resp))
    /\ s_total_size s
       = (fun L => Z.of_nat (length start) + L) <$> declared_length resp
    /\ (forall total, s_total_size s = Some total ->
        (s_downloaded s <= total
         <-> exists L, declared_length resp = Some L
                       /\ Z.of_nat (length (body resp)) <= L)).
Proof.
  intros Hrun.
  destruct (resolve opener_open urlparse_rejects url token w)
    as [[e|[redirect_url filename]] w1] eqn:Hres.
  { rewrite (download_file_resolve_fails _ _ _ _ _ _ _ _ _ _ Hres) in Hrun. done. }
  rewrite (download_file_resolve_ok _ _ _ _ _ _ _ _ _ _ _ Hres), transfer_unfold,
    bind_run in Hrun.
  set (path := path_join output_path filename) in *.
  destruct (negotiate _ _ _ _) as [[e|[n resp]] w2] eqn:Hneg; [done|].
  destruct (stream_to_file_inv _ _ _ _ _ _ _ _ Hrun) as (Hnum & Heof & Hzero).
  destruct (stream_to_file_ok invalid_literal filename path n resp w2 Hnum Heof Hzero)
    as (w3 & Hrun' & Hfiles & _).
  rewrite Hrun' in Hrun. injection Hrun as <- <-.
  apply negotiate_inv in Hneg as (Hf2 & (req & _ & Hreq) & Hn).
  destruct (after_check_frame output_path path w1) as (Hf1 & _).
  set (start := starting_content n (w_files w2 !! path)) in *.
  assert (Hstart : Z.of_nat (length start) = n
                   /\ ((0 <? n) && (status resp =? 206) = false -> n = 0)).
  { subst start. unfold starting_content. rewrite Hf2, Hf1.
    unfold found_size in Hn.
    destruct (w_files w1 !! path) as [content|]; simpl;
      destruct Hn as [[Hle [->| ->]]|(Hpos & -> & Hst)];
      try (destruct (Z.ltb_spec 0 (Z.of_nat (length content))));
      simpl; try rewrite Hst; simpl; try lia; try done.
    all: split; [lia|]; intros _; lia. }
  destruct Hstart as [Hlen Hnot].
  assert (Htotal : expected_total n resp
                   = (fun L => Z.of_nat (length start) + L) <$> declared_length resp).
  { unfold expected_total. destruct (declared_length resp) as [L|]; [|done]. simpl.
    f_equal. destruct ((0 <? n) && (status resp =? 206)) eqn:Hc; [lia|].
    specialize (Hnot eq_refl). lia. }
  exists req, resp, start. simpl.
  split; [done|]. split; [rewrite Hfiles; apply lookup_insert_eq|].
  split; [rewrite length_app; lia|]. split; [done|].
  intros total. rewrite Htotal.
  destruct (declared_length resp) as [L|]; simpl; [|done].
  intros [= <-]. split.
  - intros Hle. exists L. split; [done | lia].
  - intros (L' & [= <-] & Hle). lia.
Qed.

End Counting.

(** ** Concrete runs *)


Lemma download_file_restart_200_witness :
  exists w',
    download_file resolver_ok ignores_range accepts_all quoted_literal
      model_id_url "models" "secret"
      partial_world
    = (inr (Summary model_path wb (Some 1500) 1500), w')
    /\ w_files w' !! model_path = Some (ones 1500).
Proof.
  destruct (download_file_restart_200 resolver_ok ignores_range accepts_all quoted_literal
              model_id_url "models" "secret" mock_location "model.safetensors" "1500"
              partial_world
              (snd (resolve resolver_ok accepts_all model_id_url "secret" partial_world))
              (zeros 1000) (with_length 200 "1500" (ones 1500))
              (with_length 200 "1500" (ones 1500)) 1500)
    as (w' & Hrun & _ & Hfile);
    try (vm_compute; reflexivity).
  exists w'. split.
  - rewrite Hrun. vm_compute. reflexivity.
  - exact Hfile.
Defined.

(** C3 as the specification words it fails: in a fresh download the
    request for the content carries neither header. *)
Lemma transfer_request_lacks_credentials :
  sent (w_log (snd (download_file resolver_ok sends_too_much accepts_all quoted_literal
                      model_id_url "models" "secret" empty_world)))
  = [Request model_id_url (credentials "secret"); Request mock_location []]
  /\ forallb (carries_credentials "secret")
       (sent (w_log (snd (download_file resolver_ok sends_too_much accepts_all quoted_literal
                            model_id_url "models" "secret" empty_world))))
     = false.
Proof. split; vm_compute; reflexivity. Qed.

Lemma download_file_counts_whole_body_witness :
  exists (req : request) (resp : response) (start : list Byte.byte),
    sends_too_much req = inr resp
    /\ w_files (snd (download_file resolver_ok sends_too_much accepts_all quoted_literal
                       model_id_url "models" "secret" empty_world)) !! model_path
       = Some (start ++ body resp)%list
    /\ 5 = Z.of_nat (length (start ++ body resp))
    /\ Some 3 = (fun L => Z.of_nat (length start) + L) <$> declared_length resp
    /\ (forall total, Some 3 = Some total ->
        (5 <= total
         <-> exists L, declared_length resp = Some L
                       /\ Z.of_nat (length (body resp)) <= L)).
Proof.
  apply (download_file_counts_whole_body resolver_ok sends_too_much accepts_all quoted_literal
           model_id_url "models" "secret" empty_world
           (snd (download_file resolver_ok sends_too_much accepts_all quoted_literal
                   model_id_url "models" "secret" empty_world))
           (Summary model_path wb (Some 3) 5)).
  vm_compute. reflexivity.
Defined.

(** C8 as the specification words it fails: a body longer than the
    declared length is written in full, the count passes the total, and
    the run returns as any other. *)
Lemma download_file_accepts_longer_body :
  fst (download_file resolver_ok sends_too_much accepts_all quoted_literal
         model_id_url "models" "secret" empty_world)
  = inr (Summary model_path wb (Some 3) 5)
  /\ w_files (snd (download_file resolver_ok sends_too_much accepts_all quoted_literal
                     model_id_url "models" "secret" empty_world)) !! model_path
     = Some (ones 5)
  /\ 3 < 5.
Proof. split; [|split]; vm_compute; reflexivity. Qed.

Lemma main_reports_caught_error_witness :
  main (answer (status_only 404)) (answer (status_only 404)) accepts_all quoted_literal
    "typed" sample_token_file "46846" "." partial_world
  = (inr tt,
     log_event (EvOut (OutLine ("ERROR: " +:+ message (FileNotFoundError "File not found"))))
       (log_event (EvOpen (Request model_id_url (credentials "secret"))) partial_world)).
Proof.
  apply (main_reports_caught_error (answer (status_only 404)) (answer (status_only 404))
           accepts_all quoted_literal "typed" sample_token_file "46846" "." partial_world
           (log_event (EvOpen (Request model_id_url (credentials "secret"))) partial_world)
           (FileNotFoundError "File not found")).
  - vm_compute. reflexivity.
  - vm_compute. reflexivity.
  - reflexivity.
Defined.

(** C9 as the specification words it fails: errors of other classes pass
    through [main].  A failure of the HTTP layer that is no [URLError]
    ends the run with that exception, a disposition without [filename=]
    with an [IndexError], a declared length of zero with a non-empty body
    with a [ZeroDivisionError]. *)
Lemma main_lets_errors_escape :
  fst (main resolver_ok breaks_midway accepts_all quoted_literal "typed" sample_token_file
         "46846" "models" token_world)
  = inl (HTTPException "IncompleteRead(0 bytes read)")
  /\ fst (main (answer (redirect_to inline_location)) sends_too_much accepts_all
            quoted_literal "typed" sample_token_file "46846" "models" partial_world)
     = inl (IndexError "list index out of range")
  /\ fst (main resolver_ok declares_nothing accepts_all quoted_literal "typed"
            sample_token_file "46846" "models" token_world)
     = inl (ZeroDivisionError "division by zero").
Proof. split; [|split]; vm_compute; reflexivity. Qed.

Lemma stored_token_reaches_header_witness :
  get_token sample_token_file spaced_world = (inr (Some " secret "), spaced_world)
  /\ exists reqs,
       sent (w_log (snd (main resolver_ok sends_too_much accepts_all quoted_literal
                           "typed" sample_token_file "46846" "models" spaced_world)))
       = (Request model_id_url
            [("Authorization", "Bearer  secret "); ("User-Agent", USER_AGENT)]
          :: reqs)%list.
Proof.
  destruct (stored_token_reaches_header resolver_ok sends_too_much accepts_all
              quoted_literal "typed" sample_token_file
              (bytes_of spaced_token) "46846" "models" spaced_world eq_refl)
    as [Htext _].
  destruct (Htext eq_refl) as (Hread & _ & Hsent).
  split; [exact Hread|].
  destruct (Hsent eq_refl) as (reqs & Hreqs). exists reqs. exact Hreqs.
Defined.

(** C10 as the specification words it fails: the read is no verbatim
    copy of the file.  A token saved with a Windows line ending comes
    back with [\n] alone; a carriage return inside the token reaches the
    header as [\n]; and the bytes are validated, for a file that is no
    UTF-8 text stops [main] with a [UnicodeDecodeError]. *)
Lemma get_token_translates_line_endings :
  token_bytes sample_token_file crlf_world
  = Some (bytes_of ("secret" +:+ String CR (String LF EmptyString)))
  /\ fst (get_token sample_token_file crlf_world)
     = inr (Some ("secret" +:+ String LF EmptyString))
  /\ "secret" +:+ String LF EmptyString <> "secret" +:+ String CR (String LF EmptyString)
  /\ sent (w_log (snd (main resolver_ok sends_too_much accepts_all quoted_literal
                         "typed" sample_token_file "46846" "models" folded_world)))
     = [Request model_id_url (credentials ("secret" +:+ String LF " key"));
        Request mock_location []]
  /\ fst (main resolver_ok sends_too_much accepts_all quoted_literal
            "typed" sample_token_file "46846" "models" garbled_world)
     = inl (UnicodeDecodeError
              "'utf-8' codec can't decode byte 0xff in position 0: invalid start byte").
Proof. repeat split; try (vm_compute; reflexivity). discriminate. Qed.

(** * Further properties *)

(** ** [normalize_url] applied twice *)

Lemma normalize_url_base (s : string) :
  normalize_url (BASE_URL +:+ s) = BASE_URL +:+ s.
Proof.
  assert (Hbase : BASE_URL +:+ s
                  = String "h" (String "t" (String "t" (String "p"
                      ("s://civitai.com/api/download/models/" +:+ s)))))
    by reflexivity.
  rewrite Hbase. reflexivity.
Qed.

Lemma startswith_base (s : string) : Str.startswith (BASE_URL +:+ s) "http" = true.
Proof. reflexivity. Qed.

(** X1: [normalize_url] always yields a string that starts with [http],
    and applying it to its own result changes nothing. *)
Theorem normalize_url_idempotent (s : string) :
  Str.startswith (normalize_url s) "http" = true
  /\ normalize_url (normalize_url s) = normalize_url s.
Proof.
  unfold normalize_url at 1 3 4.
  destruct (Str.isdigit s) eqn:Hd.
  - split; [apply startswith_base | apply normalize_url_base].
  - destruct (Str.startswith s "http") eqn:Hs.
    + split; [exact Hs|]. unfold normalize_url. by rewrite Hd, Hs.
    + split; [apply startswith_base | apply normalize_url_base].
Qed.

(** ** Steps and what they may touch *)

Lemma prompts_app (l1 l2 : list event) :
  prompts (l1 ++ l2) = (prompts l1 ++ prompts l2)%list.
Proof.
  induction l1 as [|ev l1 IH]; [done|].
  destruct ev; simpl; by rewrite ?IH.
Qed.

Lemma opened_app (l1 l2 : list event) :
  opened (l1 ++ l2) = (opened l1 ++ opened l2)%list.
Proof.
  induction l1 as [|ev l1 IH]; [done|].
  destruct ev; simpl; by rewrite ?IH.
Qed.

Lemma quiet_not_input (ev : event) : is_quiet ev = true -> is_input ev = false.
Proof. by destruct ev. Qed.

Lemma no_input_prompts (evs : list event) :
  Forall (fun ev => is_input ev = false) evs -> prompts evs = [].
Proof.
  induction 1 as [|ev evs Hev _ IH]; [done|].
  destruct ev; simpl; try done.
Qed.

Lemma quiet_opened (evs : list event) :
  Forall (fun ev => is_quiet ev = true) evs -> opened evs = [].
Proof.
  induction 1 as [|ev evs Hev _ IH]; [done|].
  destruct ev; simpl; try done.
Qed.

Lemma quiet_sent_written (path : string) (evs : list event) :
  Forall (fun ev => is_quiet ev = true) evs -> written path evs = [].
Proof.
  induction 1 as [|ev evs Hev _ IH]; [done|].
  destruct ev; simpl; try done.
Qed.

Lemma quiet_step_refl (w : world) : quiet_step w w.
Proof. repeat split. exists []. by rewrite app_nil_r. Qed.

Lemma quiet_step_trans (w1 w2 w3 : world) :
  quiet_step w1 w2 -> quiet_step w2 w3 -> quiet_step w1 w3.
Proof.
  intros (Hf1 & evs1 & Hl1 & Hq1) (Hf2 & evs2 & Hl2 & Hq2).
  split; [congruence|].
  exists (evs1 ++ evs2)%list. rewrite Hl2, Hl1, <- app_assoc.
  split; [done|]. by apply Forall_app.
Qed.

Lemma quiet_step_event (ev : event) (w : world) :
  is_quiet ev = true -> quiet_step w (log_event ev w).
Proof.
  intros Hq. repeat split. exists [ev]. split; [done|]. by constructor.
Qed.

Lemma footprint_refl (path : string) (w : world) : footprint path w w.
Proof. repeat split. exists []. by rewrite app_nil_r. Qed.

Lemma footprint_trans (path : string) (w1 w2 w3 : world) :
  footprint path w1 w2 -> footprint path w2 w3 -> footprint path w1 w3.
Proof.
  intros (Hf1 & evs1 & Hl1 & Hq1) (Hf2 & evs2 & Hl2 & Hq2).
  split.
  - intros p Hp. rewrite Hf2, Hf1; done.
  - exists (evs1 ++ evs2)%list. rewrite Hl2, Hl1, <- app_assoc.
    split; [done|]. by apply Forall_app.
Qed.

Lemma quiet_step_footprint (path : string) (w w' : world) :
  quiet_step w w' -> footprint path w w'.
Proof.
  intros (Hf & evs & Hl & Hq). split.
  - intros p _. by rewrite Hf.
  - exists evs. split; [done|].
    eapply Forall_impl; [exact Hq|]. apply quiet_not_input.
Qed.

Lemma footprint_event (path : string) (ev : event) (w : world) :
  is_input ev = false -> footprint path w (log_event ev w).
Proof.
  intros Hq. repeat split. exists [ev]. split; [done|]. by constructor.
Qed.

Lemma footprint_write (path : string) (content : list Byte.byte) (w : world) :
  footprint path w
    {| w_files := <[path := content]> (w_files w); w_log := w_log w |}.
Proof.
  split.
  - intros p Hp. simpl. by rewrite lookup_insert_ne.
  - exists []. simpl. by rewrite app_nil_r.
Qed.

Section Footprints.

Variable opener_open : request -> exn + response.
Variable urlopen : request -> exn + response.
Variable urlparse_rejects : string -> option string.
Variable invalid_literal : string -> string.

(** The resolver writes no file and is quiet. *)
Lemma resolve_quiet (url token : string) (w : world) :
  quiet_step w (snd (resolve opener_open urlparse_rejects url token w)).
Proof.
  unfold resolve. cbv zeta. rewrite bind_run. prim.
  destruct (opener_open _) as [e|resp]; prim.
  { by apply quiet_step_event. }
  assert (H1 : quiet_step w (log_event (EvOpen (Request url
                 [("Authorization", "Bearer " +:+ token); ("User-Agent", USER_AGENT)])) w))
    by (by apply quiet_step_event).
  destruct (is_redirect (status resp)).
  - assert (H2 : quiet_step w (log_event (EvGetHeader "Location")
                   (log_event (EvOpen (Request url
                     [("Authorization", "Bearer " +:+ token);
                      ("User-Agent", USER_AGENT)])) w))).
    { eapply quiet_step_trans; [exact H1|]. by apply quiet_step_event. }
    destruct (getheader resp "Location") as [loc|]; prim; [|exact H2].
    destruct (urlparse_rejects loc); prim; [exact H2|].
    destruct (Url.first_value _ _) as [cd|]; [destruct (Str.truthy cd);
      [destruct (Str.split cd "filename=" !! 1%nat)|]|]; prim; exact H2.
  - destruct (status resp =? 404); prim; exact H1.
Qed.

(** The value the resolver returns does not depend on the world. *)
Lemma resolve_any_world (url token : string) (w w' : world) :
  fst (resolve opener_open urlparse_rejects url token w)
  = fst (resolve opener_open urlparse_rejects url token w').
Proof.
  unfold resolve. cbv zeta. rewrite !bind_run. prim.
  destruct (opener_open _) as [e|resp]; prim; [done|].
  destruct (is_redirect (status resp)).
  - destruct (getheader resp "Location") as [loc|]; prim; [|done].
    destruct (urlparse_rejects loc); prim; [done|].
    destruct (Url.first_value _ _) as [cd|]; [destruct (Str.truthy cd);
      [destruct (Str.split cd "filename=" !! 1%nat)|]|]; prim; done.
  - destruct (status resp =? 404); prim; done.
Qed.

Lemma negotiate_quiet (redirect_url : string) (n : Z) (w : world) :
  quiet_step w (snd (negotiate urlopen redirect_url n w)).
Proof.
  unfold negotiate. destruct (0 <? n).
  - rewrite bind_run. prim.
    destruct (urlopen (Request redirect_url _)) as [e|r]; prim.
    { by apply quiet_step_event. }
    destruct (status r =? 206); prim.
    { eapply quiet_step_trans; [|by apply quiet_step_event].
      by apply quiet_step_event. }
    destruct (status r =? 200); prim.
    + destruct (urlopen (Request redirect_url [])) as [e|r']; prim;
        (eapply quiet_step_trans; [|by apply quiet_step_event];
         eapply quiet_step_trans; [|by apply quiet_step_event];
         by apply quiet_step_event).
    + by apply quiet_step_event.
  - rewrite bind_run. prim.
    destruct (urlopen (Request redirect_url [])) as [e|r]; prim;
      by apply quiet_step_event.
Qed.

Lemma after_check_quiet (output_path path : string) (w : world) :
  quiet_step w (after_check output_path path w).
Proof.
  unfold after_check. destruct (w_files w !! path).
  - eapply quiet_step_trans; [|by apply quiet_step_event].
    by apply quiet_step_event.
  - by apply quiet_step_event.
Qed.

End Footprints.

(** ** The loop, report by report *)

Section LoopTrace.

Variables (filename path : string) (total_size : option Z).

(** In the loop every progress report follows the write of its buffer
    and shows the count of the bytes written so far; the loop opens no
    file, asks nothing, and writes to its file only. *)
Lemma stream_loop_trace (chunks : list (list Byte.byte)) (eof_error : option exn) :
  forall (downloaded : Z) (w : world),
    let w' := snd (stream_loop filename path total_size chunks eof_error
                     downloaded w) in
    (forall p, p <> path -> w_files w' !! p = w_files w !! p)
    /\ exists evs, w_log w' = (w_log w ++ evs)%list
                   /\ Forall (fun ev => is_input ev = false) evs
                   /\ opened evs = []
                   /\ progress_consistent downloaded evs.
Proof.
  induction chunks as [|buffer chunks IH]; intros downloaded w; cbv zeta in *.
  - simpl. destruct eof_error; simpl;
      (repeat split; exists []; by rewrite app_nil_r).
  - destruct buffer as [|b buffer].
    { simpl. repeat split. exists []. by rewrite app_nil_r. }
    cbn [stream_loop]. rewrite !bind_run. prim.
    set (d' := downloaded + Z.of_nat (length (b :: buffer))).
    destruct total_size as [total|].
    + destruct (total =? 0); prim.
      * split; [intros p Hp; simpl; by rewrite lookup_insert_ne|].
        exists [EvWrite path (b :: buffer)]. simpl.
        repeat split; try done. by constructor.
      * match goal with
        | |- context [stream_loop _ _ _ _ _ ?d ?w1] =>
            destruct (IH d w1) as (Hf & evs & Hl & Hq & Ho & Hp)
        end.
        split.
        { intros p Hne. rewrite (Hf p Hne). simpl. by rewrite lookup_insert_ne. }
        exists (EvWrite path (b :: buffer) :: EvOut (OutProgress filename d' total) :: evs).
        rewrite Hl. simpl. rewrite <- !app_assoc. simpl.
        split; [done|]. split; [by repeat constructor|]. split; [done|].
        split; [done | exact Hp].
    + prim.
      match goal with
      | |- context [stream_loop _ _ _ _ _ ?d ?w1] =>
          destruct (IH d w1) as (Hf & evs & Hl & Hq & Ho & Hp)
      end.
      split.
      { intros p Hne. rewrite (Hf p Hne). simpl. by rewrite lookup_insert_ne. }
      exists (EvWrite path (b :: buffer) :: evs).
      rewrite Hl. simpl. rewrite <- !app_assoc. simpl.
      split; [done|]. split; [by repeat constructor|]. split; [done|]. exact Hp.
Qed.

End LoopTrace.

Lemma progress_consistent_quiet (evs : list event) :
  Forall (fun ev => is_quiet ev = true) evs ->
  forall count, progress_consistent count evs.
Proof.
  induction 1 as [|ev evs Hev _ IH]; intros count; [done|].
  destruct ev as [| | | | | | |o]; simpl; try done; try apply IH.
  destruct o; simpl in *; try done; apply IH.
Qed.

Lemma progress_consistent_app (l1 l2 : list event) :
  (forall count, progress_consistent count l2) ->
  forall count, progress_consistent count l1 -> progress_consistent count (l1 ++ l2).
Proof.
  intros H2. induction l1 as [|ev l1 IH]; intros count H1; [apply H2|].
  destruct ev as [| | | | | | |o]; simpl in *; try (by apply IH).
  destruct o; simpl in *; try (by apply IH).
  destruct H1 as [-> H1]. split; [done | by apply IH].
Qed.

Lemma progress_consistent_after_quiet (l1 l2 : list event) (count : Z) :
  Forall (fun ev => is_quiet ev = true) l1 ->
  progress_consistent count l2 -> progress_consistent count (l1 ++ l2).
Proof.
  intros H1 H2. induction H1 as [|ev l1 Hev _ IH]; [done|].
  destruct ev as [| | | | | | |o]; simpl in *; try done.
  destruct o; simpl in *; done.
Qed.

Section StreamTrace.

Variable invalid_literal : string -> string.
Variables (filename output_file : string) (resume_byte_pos : Z) (resp : response).

(** The streaming part opens its file at most once, in the mode the
    offset calls for, writes to no other file, asks nothing, and reports
    progress consistently from the offset. *)
Lemma stream_to_file_trace (w : world) :
  let w' := snd (stream_to_file invalid_literal filename output_file resume_byte_pos resp w) in
  (forall p, p <> output_file -> w_files w' !! p = w_files w !! p)
  /\ exists evs, w_log w' = (w_log w ++ evs)%list
                 /\ Forall (fun ev => is_input ev = false) evs
                 /\ (opened evs = []
                     \/ opened evs = [(output_file, mode_for resume_byte_pos)])
                 /\ progress_consistent resume_byte_pos evs.
Proof.
  cbv zeta. unfold stream_to_file, mode_for. prim.
  assert (Hgo : forall total mode (w1 : world),
    (forall p, p <> output_file -> w_files w1 !! p = w_files w !! p) ->
    w_log w1 = (w_log w ++ [EvGetHeader "Content-Length"; EvFileOpen output_file mode])%list ->
    let w' := snd
      (let (s, w'0) := stream_loop filename output_file total
                         (read_chunks CHUNK_SIZE (body resp)) (body_error resp)
                         resume_byte_pos w1 in
       match s with
       | inl e => (inl e, w'0)
       | inr x =>
           (inr (Summary output_file mode total x),
            log_event (EvOut OutElapsed)
              (log_event (EvOut (OutLine ("Download completed. File saved as: " +:+ filename)))
                 (log_event (EvOut OutNewline) w'0)))
       end) in
    (forall p, p <> output_file -> w_files w' !! p = w_files w !! p)
    /\ exists evs, w_log w' = (w_log w ++ evs)%list
                   /\ Forall (fun ev => is_input ev = false) evs
                   /\ (opened evs = [] \/ opened evs = [(output_file, mode)])
                   /\ progress_consistent resume_byte_pos evs).
  { intros total mode w1 Hf1 Hl1. cbv zeta.
    destruct (stream_loop_trace filename output_file total
                (read_chunks CHUNK_SIZE (body resp)) (body_error resp)
                resume_byte_pos w1) as (Hf & evs & Hl & Hq & Ho & Hp).
    destruct (stream_loop _ _ _ _ _ _ _) as [[e|r] w2]; simpl in *.
    - split; [intros p Hne; by rewrite Hf, Hf1|].
      exists (EvGetHeader "Content-Length" :: EvFileOpen output_file mode :: evs).
      rewrite Hl, Hl1, <- app_assoc. simpl. rewrite Ho.
      split; [done|]. split; [by repeat constructor|]. split; [by right | done].
    - split; [intros p Hne; by rewrite Hf, Hf1|].
      exists (EvGetHeader "Content-Length" :: EvFileOpen output_file mode
              :: evs ++ [EvOut OutNewline;
                         EvOut (OutLine ("Download completed. File saved as: " +:+ filename));
                         EvOut OutElapsed])%list.
      rewrite Hl, Hl1, <- !app_assoc. simpl. rewrite opened_app, Ho. simpl.
      split; [done|].
      split; [repeat constructor; apply Forall_app; split; [done | by repeat constructor]|].
      split; [by right|].
      apply progress_consistent_app; [|done]. intros count. simpl. done. }
  destruct (getheader resp "Content-Length") as [text|]; simpl.
  - destruct (PyInt.int text) as [k|]; simpl.
    + destruct (0 <? resume_byte_pos); destruct (status resp =? 206); simpl; prim;
        (apply Hgo; simpl;
         [intros p Hne; by rewrite ?lookup_insert_ne
         |by rewrite <- app_assoc]).
    + split; [done|].
      exists [EvGetHeader "Content-Length"]. simpl.
      split; [done|]. split; [by repeat constructor|]. split; [by left | done].
  - destruct (0 <? resume_byte_pos); simpl; prim;
      (apply Hgo; simpl;
       [intros p Hne; by rewrite ?lookup_insert_ne
       |by rewrite <- app_assoc]).
Qed.

End StreamTrace.

Section RunTrace.

Variable opener_open : request -> exn + response.
Variable urlopen : request -> exn + response.
Variable urlparse_rejects : string -> option string.
Variable invalid_literal : string -> string.

Lemma transfer_trace (redirect_url filename output_path : string) (w : world) :
  let path := path_join output_path filename in
  let w' := snd (transfer urlopen invalid_literal redirect_url filename output_path w) in
  (forall p, p <> path -> w_files w' !! p = w_files w !! p)
  /\ exists evs start,
       w_log w' = (w_log w ++ evs)%list
       /\ Forall (fun ev => is_input ev = false) evs
       /\ (opened evs = [] \/ exists mode, opened evs = [(path, mode)])
       /\ (start = 0 \/ start = found_size w path)
       /\ progress_consistent start evs.
Proof.
  intros path. cbv zeta. rewrite transfer_unfold, bind_run. fold path.
  destruct (after_check_quiet output_path path w) as (Hf0 & evs0 & Hl0 & Hq0).
  destruct (negotiate_quiet urlopen redirect_url (found_size w path)
              (after_check output_path path w)) as (Hf1 & evs1 & Hl1 & Hq1).
  destruct (negotiate _ _ _ _) as [[e|[n resp]] w2] eqn:Hneg; simpl in *.
  - split; [intros p _; congruence|].
    exists (evs0 ++ evs1)%list, 0. rewrite Hl1, Hl0, <- app_assoc.
    assert (Hq : Forall (fun ev => is_quiet ev = true) (evs0 ++ evs1))
      by (by apply Forall_app).
    split; [done|].
    split; [eapply Forall_impl; [exact Hq | apply quiet_not_input]|].
    split; [left; by apply quiet_opened|]. split; [by left|].
    by apply progress_consistent_quiet.
  - apply negotiate_inv in Hneg as (_ & _ & Hn).
    destruct (stream_to_file_trace invalid_literal filename path n resp w2)
      as (Hf2 & evs2 & Hl2 & Hq2 & Ho2 & Hp2).
    split; [intros p Hne; rewrite (Hf2 p Hne); congruence|].
    assert (Hq : Forall (fun ev => is_quiet ev = true) (evs0 ++ evs1))
      by (by apply Forall_app).
    exists ((evs0 ++ evs1) ++ evs2)%list, n.
    rewrite Hl2, Hl1, Hl0, <- !app_assoc.
    split; [done|]. split.
    { rewrite app_assoc. apply Forall_app. split; [|done].
      eapply Forall_impl; [exact Hq | apply quiet_not_input]. }
    split.
    { rewrite app_assoc, opened_app, (quiet_opened _ Hq). simpl.
      destruct Ho2 as [->| ->]; [by left | right; by eexists]. }
    split; [lia|].
    rewrite app_assoc. by apply progress_consistent_after_quiet.
Qed.



(** X8: in every run of [download_file], whatever its outcome, each
    progress report shows the starting offset plus the bytes written to
    the file before the report; the offset is zero or the size the local
    file had, and at most one file is opened. *)
Theorem download_file_progress_reports (url output_path token : string) (w : world) :
  let w' := snd (download_file opener_open urlopen urlparse_rejects invalid_literal
                   url output_path token w) in
  exists evs start,
    w_log w' = (w_log w ++ evs)%list
    /\ progress_consistent start evs
    /\ (length (opened evs) <= 1)%nat
    /\ (start = 0
        \/ exists redirect_url filename w1,
             resolve opener_open urlparse_rejects url token w
             = (inr (redirect_url, filename), w1)
             /\ start = found_size w (path_join output_path filename)).
Proof.
  cbv zeta.
  destruct (resolve_quiet opener_open urlparse_rejects url token w)
    as (Hf0 & evs0 & Hl0 & Hq0).
  destruct (resolve opener_open urlparse_rejects url token w)
    as [[e|[redirect_url filename]] w1] eqn:Hres; simpl in *.
  - rewrite (download_file_resolve_fails _ _ _ _ _ _ _ _ _ _ Hres). simpl.
    exists evs0, 0. split; [done|].
    split; [by apply progress_consistent_quiet|].
    rewrite (quiet_opened _ Hq0). simpl. split; [lia | by left].
  - rewrite (download_file_resolve_ok _ _ _ _ _ _ _ _ _ _ _ Hres).
    destruct (transfer_trace redirect_url filename output_path w1)
      as (Hf & evs & start & Hl & Hq & Ho & Hstart & Hp).
    exists (evs0 ++ evs)%list, start.
    rewrite Hl, Hl0, <- app_assoc. split; [done|].
    split; [by apply progress_consistent_after_quiet|].
    rewrite opened_app, (quiet_opened _ Hq0). simpl. split.
    { destruct Ho as [->|[mode ->]]; simpl; lia. }
    destruct Hstart as [->| ->]; [by left|]. right.
    exists redirect_url, filename, w1. split; [done|].
    unfold found_size. by rewrite Hf0.
Qed.

End RunTrace.

(** ** The streaming part, outcome by outcome *)

Section StreamOutcomes.

Variable invalid_literal : string -> string.
Variables (filename path : string).

(** The loop on buffers that are not empty, when the total is not zero:
    every buffer is appended, and the end of the stream decides between
    the count and the exception. *)
Lemma stream_loop_run (total_size : option Z) (chunks : list (list Byte.byte))
    (eof_error : option exn) :
  Forall (fun buffer => buffer <> []) chunks ->
  (total_size = Some 0 -> chunks = []) ->
  forall (downloaded : Z) (w : world) (old : list Byte.byte),
    w_files w !! path = Some old ->
    exists w',
      stream_loop filename path total_size chunks eof_error downloaded w
      = (match eof_error with
         | Some e => inl e
         | None => inr (downloaded + Z.of_nat (length (concat chunks)))
         end, w')
      /\ w_files w' = <[path := (old ++ concat chunks)%list]> (w_files w).
Proof.
  induction 1 as [|buffer chunks Hne Hall IH]; intros Htot downloaded w old Hold.
  - exists w. simpl. rewrite app_nil_r, Z.add_0_r, insert_id by done.
    by destruct eof_error.
  - destruct buffer as [|b buffer]; [done|].
    cbn [stream_loop]. rewrite !bind_run. prim. rewrite Hold. simpl default.
    assert (Hnz : total_size <> Some 0) by (intros H0; by specialize (Htot H0)).
    assert (Hstep : forall w1,
      w_files w1 = <[path := (old ++ b :: buffer)%list]> (w_files w) ->
      exists w',
        stream_loop filename path total_size chunks eof_error
          (downloaded + Z.of_nat (length (b :: buffer))) w1
        = (match eof_error with
           | Some e => inl e
           | None => inr (downloaded
                          + Z.of_nat (length (concat ((b :: buffer) :: chunks))))
           end, w')
        /\ w_files w' = <[path := (old ++ concat ((b :: buffer) :: chunks))%list]>
                          (w_files w)).
    { intros w1 Hf1.
      destruct (IH (fun H => ltac:(by specialize (Htot H)))
                  (downloaded + Z.of_nat (length (b :: buffer))) w1
                  (old ++ b :: buffer)%list) as (w' & Hrun & Hf).
      { rewrite Hf1. apply lookup_insert_eq. }
      exists w'. rewrite Hrun, Hf, Hf1, insert_insert_eq.
      rewrite concat_cons, length_app, <- app_assoc. split; [|done].
      destruct eof_error; [done|]. do 2 f_equal. lia. }
    destruct total_size as [total|].
    + destruct (Z.eqb_spec total 0) as [->|_]; [done|]. prim. by apply Hstep.
    + prim. by apply Hstep.
Qed.

Variables (resume_byte_pos : Z) (resp : response).

(** With a [Content-Length] that is absent or a number, the streaming
    part is the loop started in [loop_start], followed by the report. *)
Lemma stream_to_file_unfold (w : world) :
  header_is_number resp ->
  stream_to_file invalid_literal filename path resume_byte_pos resp w
  = match stream_loop filename path (expected_total resume_byte_pos resp)
            (read_chunks CHUNK_SIZE (body resp)) (body_error resp)
            resume_byte_pos (loop_start path resume_byte_pos w) with
    | (inl e, w') => (inl e, w')
    | (inr downloaded, w') =>
        (inr (Summary path (mode_for resume_byte_pos)
                (expected_total resume_byte_pos resp) downloaded),
         report_done filename w')
    end.
Proof.
  intros Hnum.
  unfold stream_to_file, expected_total, declared_length, loop_start,
    starting_content, mode_for, report_done.
  prim.
  destruct (getheader resp "Content-Length") as [text|] eqn:Hcl.
  - destruct (Hnum text Hcl) as [n Hn]. simpl. rewrite Hn. simpl.
    destruct (0 <? resume_byte_pos); destruct (status resp =? 206); simpl; prim;
      rewrite <- app_assoc; reflexivity.
  - simpl. destruct (0 <? resume_byte_pos); simpl; prim;
      rewrite <- app_assoc; reflexivity.
Qed.

(** A [Content-Length] that is no number stops the run before the file is
    opened. *)
Lemma stream_to_file_bad_header (text : string) (w : world) :
  getheader resp "Content-Length" = Some text ->
  PyInt.int text = None ->
  stream_to_file invalid_literal filename path resume_byte_pos resp w
  = (inl (ValueError (invalid_literal text)),
     log_event (EvGetHeader "Content-Length") w).
Proof.
  intros Hcl Hint. unfold stream_to_file. prim. by rewrite Hcl, Hint.
Qed.

(** A stream that breaks: the bytes delivered before are in the file. *)
Lemma stream_to_file_run (w : world) :
  header_is_number resp ->
  (expected_total resume_byte_pos resp = Some 0 -> body resp = []) ->
  exists w',
    stream_to_file invalid_literal filename path resume_byte_pos resp w
    = (match body_error resp with
       | Some e => inl e
       | None => inr (Summary path (mode_for resume_byte_pos)
                        (expected_total resume_byte_pos resp)
                        (resume_byte_pos + Z.of_nat (length (body resp))))
       end, w')
    /\ w_files w'
       = <[path := (starting_content resume_byte_pos (w_files w !! path)
                    ++ body resp)%list]> (w_files w).
Proof.
  intros Hnum Hzero. rewrite stream_to_file_unfold by done.
  destruct (stream_loop_run (expected_total resume_byte_pos resp)
              (read_chunks CHUNK_SIZE (body resp)) (body_error resp)
              (read_chunks_nonempty _ _ CHUNK_SIZE_pos))
    with (downloaded := resume_byte_pos) (w := loop_start path resume_byte_pos w)
         (old := starting_content resume_byte_pos (w_files w !! path))
    as (w' & Hrun & Hf).
  { intros H0. by rewrite (Hzero H0). }
  { simpl. apply lookup_insert_eq. }
  rewrite read_chunks_concat in Hrun, Hf by apply CHUNK_SIZE_pos.
  rewrite Hrun. simpl in Hf. rewrite insert_insert_eq in Hf.
  destruct (body_error resp); eexists; (split; [reflexivity|]); simpl; exact Hf.
Qed.

(** A total of zero and a body that is not empty: the first buffer is
    written, then the progress division fails. *)
Lemma stream_to_file_zero_total (w : world) :
  header_is_number resp ->
  expected_total resume_byte_pos resp = Some 0 ->
  body resp <> [] ->
  exists w',
    stream_to_file invalid_literal filename path resume_byte_pos resp w
    = (inl (ZeroDivisionError "division by zero"), w')
    /\ w_files w'
       = <[path := (starting_content resume_byte_pos (w_files w !! path)
                    ++ take_bytes CHUNK_SIZE (body resp))%list]> (w_files w).
Proof.
  intros Hnum Hzero Hbody. rewrite stream_to_file_unfold by done. rewrite Hzero.
  destruct (body resp) as [|b data] eqn:Hb; [done|].
  unfold read_chunks.
  change (read_chunks_fuel (length (b :: data)) CHUNK_SIZE (b :: data))
    with (take_bytes CHUNK_SIZE (b :: data)
            :: read_chunks_fuel (length data) CHUNK_SIZE
                 (drop_bytes CHUNK_SIZE (b :: data))).
  assert (Htake : take_bytes CHUNK_SIZE (b :: data)
                  = b :: take_bytes (N.pred CHUNK_SIZE) data) by reflexivity.
  rewrite Htake. cbn [stream_loop]. rewrite !bind_run. prim. simpl.
  rewrite lookup_insert_eq. simpl. rewrite insert_insert_eq.
  eexists. split; reflexivity.
Qed.

End StreamOutcomes.

(** ** Runs of [download_file], path by path *)

Lemma path_join_absolute (output_path filename : string) :
  Str.startswith filename "/" = true -> path_join output_path filename = filename.
Proof. intros H. unfold path_join. by rewrite H. Qed.

Lemma expected_total_fresh (resp : response) :
  expected_total 0 resp = declared_length resp.
Proof. unfold expected_total. simpl. by destruct (declared_length resp). Qed.

Section Paths.

Variable opener_open : request -> exn + response.
Variable urlopen : request -> exn + response.
Variable urlparse_rejects : string -> option string.
Variable invalid_literal : string -> string.

Lemma download_file_unfold (url output_path token redirect_url filename : string)
    (w w1 : world) :
  resolve opener_open urlparse_rejects url token w = (inr (redirect_url, filename), w1) ->
  let path := path_join output_path filename in
  download_file opener_open urlopen urlparse_rejects invalid_literal url output_path token w
  = (negotiate urlopen redirect_url (found_size w path)
       ≫= fun '(resume_byte_pos, response) =>
            stream_to_file invalid_literal filename path resume_byte_pos response)
      (after_check output_path path w1)
  /\ w_files (after_check output_path path w1) = w_files w
  /\ sent (w_log (after_check output_path path w1)) = sent (w_log w1).
Proof.
  intros Hres path.
  destruct (resolve_quiet opener_open urlparse_rejects url token w) as (Hf & _).
  rewrite Hres in Hf. simpl in Hf.
  destruct (after_check_frame output_path path w1) as (Hf1 & Hs1).
  rewrite (download_file_resolve_ok _ _ _ _ _ _ _ _ _ _ _ Hres), transfer_unfold.
  fold path. unfold found_size. rewrite Hf. split; [done|]. split; congruence.
Qed.

Lemma negotiate_other (redirect_url : string) (n : Z) (resp : response) (w : world) :
  0 < n ->
  urlopen (Request redirect_url (range_header n)) = inr resp ->
  status resp <> 206 ->
  status resp <> 200 ->
  negotiate urlopen redirect_url n w
  = (inl (RuntimeError ("Unexpected response status: " +:+ pretty (status resp))),
     log_event (EvUrlopen (Request redirect_url (range_header n))) w).
Proof.
  intros Hn Hresp H206 H200. unfold negotiate, range_header in *.
  destruct (Z.ltb_spec 0 n); [|lia].
  rewrite bind_run. prim. rewrite Hresp. prim.
  destruct (Z.eqb_spec (status resp) 206); [done|].
  destruct (Z.eqb_spec (status resp) 200); [done|]. reflexivity.
Qed.

(** X2: a partial file of [N > 0] bytes and an answer to the range request
    whose status is neither 206 nor 200: the run stops with a
    [RuntimeError] whose message ends in the status, which can be read
    back from it; the plain request is not sent and no file changes. *)
Theorem download_file_resume_refused
    (url output_path token redirect_url filename : string)
    (w w1 : world) (old : list Byte.byte) (resp : response) :
  let output_file := path_join output_path filename in
  let N := Z.of_nat (length old) in
  resolve opener_open urlparse_rejects url token w = (inr (redirect_url, filename), w1) ->
  w_files w !! output_file = Some old ->
  0 < N ->
  urlopen (Request redirect_url (range_header N)) = inr resp ->
  status resp <> 206 ->
  status resp <> 200 ->
  exists w',
    download_file opener_open urlopen urlparse_rejects invalid_literal url output_path token w
    = (inl (RuntimeError ("Unexpected response status: " +:+ pretty (status resp))), w')
    /\ w_files w' = w_files w
    /\ sent (w_log w') = (sent (w_log w1) ++ [Request redirect_url (range_header N)])%list
    /\ opened (w_log w') = opened (w_log w)
    /\ (forall st : Z,
          "Unexpected response status: " +:+ pretty st
          = "Unexpected response status: " +:+ pretty (status resp) ->
          st = status resp).
Proof.
  intros output_file N Hres Hold HN Hresp H206 H200.
  destruct (download_file_unfold url output_path token _ _ _ _ Hres)
    as (Hrun & Hf & Hs).
  fold output_file in Hrun, Hf, Hs.
  destruct (resolve_quiet opener_open urlparse_rejects url token w)
    as (_ & evs0 & Hl0 & Hq0).
  rewrite Hres in Hl0. simpl in Hl0.
  destruct (after_check_quiet output_path output_file w1) as (_ & evs1 & Hl1 & Hq1).
  assert (Hsize : found_size w output_file = N) by (unfold found_size; by rewrite Hold).
  rewrite Hsize in Hrun.
  erewrite bind_fail in Hrun by (by apply negotiate_other).
  eexists. split; [exact Hrun|]. simpl.
  split; [exact Hf|]. split; [by rewrite sent_app, Hs|]. split.
  - rewrite opened_app, Hl1, Hl0, !opened_app, (quiet_opened _ Hq0),
      (quiet_opened _ Hq1). simpl. by rewrite !app_nil_r.
  - intros st Heq. apply (inj (String.app _)) in Heq. by apply (inj pretty) in Heq.
Qed.

(** A download that starts from nothing: no local file, or an empty
    one. *)
Lemma fresh_run (url output_path token redirect_url filename : string)
    (w w1 : world) (resp : response) :
  let output_file := path_join output_path filename in
  resolve opener_open urlparse_rejects url token w = (inr (redirect_url, filename), w1) ->
  found_size w output_file = 0 ->
  urlopen (Request redirect_url []) = inr resp ->
  header_is_number resp ->
  (declared_length resp = Some 0 -> body resp = []) ->
  exists w',
    download_file opener_open urlopen urlparse_rejects invalid_literal url output_path token w
    = (match body_error resp with
       | Some e => inl e
       | None => inr (Summary output_file wb (declared_length resp)
                        (Z.of_nat (length (body resp))))
       end, w')
    /\ w_files w' = <[output_file := body resp]> (w_files w)
    /\ sent (w_log w')
       = (sent (w_log w) ++ [Request url (credentials token); Request redirect_url []])%list.
Proof.
  intros output_file Hres Hsize Hresp Hnum Hzero.
  destruct (download_file_unfold url output_path token _ _ _ _ Hres)
    as (Hrun & Hf & Hs).
  fold output_file in Hrun, Hf, Hs. rewrite Hsize in Hrun.
  erewrite bind_ok in Hrun by (by apply negotiate_fresh).
  cbv beta iota in Hrun.
  destruct (stream_to_file_run invalid_literal filename output_file 0 resp
              (log_event (EvUrlopen (Request redirect_url []))
                 (after_check output_path output_file w1)) Hnum)
    as (w' & Hrun' & Hf').
  { by rewrite expected_total_fresh. }
  pose proof (stream_to_file_sent invalid_literal filename output_file 0 resp
                (log_event (EvUrlopen (Request redirect_url []))
                   (after_check output_path output_file w1))) as Hss.
  rewrite Hrun' in Hss, Hrun. rewrite expected_total_fresh in Hrun.
  simpl in Hss. rewrite sent_app, Hs in Hss.
  destruct (resolve_frame opener_open urlparse_rejects url token w)
    as (_ & evs & Hl & Hevs).
  rewrite Hres in Hl. simpl in Hl.
  exists w'. split; [exact Hrun|]. split; [rewrite Hf'; simpl; by rewrite Hf|].
  rewrite Hss, Hl, sent_app. simpl. rewrite Hevs. by rewrite <- app_assoc.
Qed.

(** X3: with no local file, or an empty one, the content is asked for
    once, without a [Range] header; the file is opened for overwriting
    and ends up holding exactly the body; the total is the declared
    length and the count the length of the body. *)
Theorem download_file_fresh (url output_path token redirect_url filename : string)
    (w w1 : world) (resp : response) :
  let output_file := path_join output_path filename in
  resolve opener_open urlparse_rejects url token w = (inr (redirect_url, filename), w1) ->
  w_files w !! output_file = None \/ w_files w !! output_file = Some [] ->
  urlopen (Request redirect_url []) = inr resp ->
  header_is_number resp ->
  body_error resp = None ->
  (declared_length resp = Some 0 -> body resp = []) ->
  exists w',
    download_file opener_open urlopen urlparse_rejects invalid_literal url output_path token w
    = (inr (Summary output_file wb (declared_length resp)
              (Z.of_nat (length (body resp)))), w')
    /\ w_files w' = <[output_file := body resp]> (w_files w)
    /\ sent (w_log w')
       = (sent (w_log w) ++ [Request url (credentials token); Request redirect_url []])%list.
Proof.
  intros output_file Hres Hnone Hresp Hnum Heof Hzero.
  assert (Hsize : found_size w output_file = 0).
  { unfold found_size. by destruct Hnone as [-> | ->]. }
  destruct (fresh_run url output_path token _ _ _ _ resp Hres Hsize Hresp Hnum Hzero)
    as (w' & Hrun & Hf & Hs).
  fold output_file in Hrun, Hf. rewrite Heof in Hrun.
  exists w'. by repeat split.
Qed.

(** X6: a fresh download whose stream breaks after some bytes raises the
    exception of the stream, and the bytes received are in the file. *)
Theorem download_file_interrupted (url output_path token redirect_url filename : string)
    (w w1 : world) (resp : response) (e : exn) :
  let output_file := path_join output_path filename in
  resolve opener_open urlparse_rejects url token w = (inr (redirect_url, filename), w1) ->
  w_files w !! output_file = None ->
  urlopen (Request redirect_url []) = inr resp ->
  header_is_number resp ->
  body_error resp = Some e ->
  (declared_length resp = Some 0 -> body resp = []) ->
  exists w',
    download_file opener_open urlopen urlparse_rejects invalid_literal url output_path token w
    = (inl e, w')
    /\ w_files w' !! output_file = Some (body resp)
    /\ (forall p, p <> output_file -> w_files w' !! p = w_files w !! p).
Proof.
  intros output_file Hres Hnone Hresp Hnum Heof Hzero.
  assert (Hsize : found_size w output_file = 0).
  { unfold found_size. by rewrite Hnone. }
  destruct (fresh_run url output_path token _ _ _ _ resp Hres Hsize Hresp Hnum Hzero)
    as (w' & Hrun & Hf & _).
  fold output_file in Hrun, Hf. rewrite Heof in Hrun.
  exists w'. split; [exact Hrun|]. rewrite Hf.
  split; [apply lookup_insert_eq | intros p Hp; by apply lookup_insert_ne].
Qed.

(** X9: a fresh download whose response declares a length of zero and
    still sends bytes: the first buffer (at most [CHUNK_SIZE] bytes) is
    written, then the run ends with a [ZeroDivisionError], which [main]
    does not catch. *)
Theorem download_file_zero_length (url output_path token redirect_url filename : string)
    (w w1 : world) (resp : response) :
  let output_file := path_join output_path filename in
  resolve opener_open urlparse_rejects url token w = (inr (redirect_url, filename), w1) ->
  found_size w output_file = 0 ->
  urlopen (Request redirect_url []) = inr resp ->
  declared_length resp = Some 0 ->
  body resp <> [] ->
  exists w',
    download_file opener_open urlopen urlparse_rejects invalid_literal url output_path token w
    = (inl (ZeroDivisionError "division by zero"), w')
    /\ w_files w' !! output_file = Some (take_bytes CHUNK_SIZE (body resp))
    /\ caught_by_main (ZeroDivisionError "division by zero") = false.
Proof.
  intros output_file Hres Hsize Hresp Hdecl Hbody.
  destruct (download_file_unfold url output_path token _ _ _ _ Hres)
    as (Hrun & Hf & Hs).
  fold output_file in Hrun, Hf, Hs. rewrite Hsize in Hrun.
  erewrite bind_ok in Hrun by (by apply negotiate_fresh).
  cbv beta iota in Hrun.
  destruct (stream_to_file_zero_total invalid_literal filename output_file 0 resp
              (log_event (EvUrlopen (Request redirect_url []))
                 (after_check output_path output_file w1)))
    as (w' & Hrun' & Hf'); [| |done|].
  - intros text Htext. unfold declared_length in Hdecl. rewrite Htext in Hdecl.
    simpl in Hdecl. by eexists.
  - by rewrite expected_total_fresh.
  - rewrite Hrun' in Hrun. exists w'. split; [exact Hrun|].
    rewrite Hf'. split; [apply lookup_insert_eq | done].
Qed.

(** X12: the file name comes from the server and is joined to the output
    path as [os.path.join] does: a name that begins with [/] makes a
    fresh download write to that very path, whatever the output path. *)
Theorem download_file_absolute_name (url output_path token redirect_url filename : string)
    (w w1 : world) (resp : response) :
  resolve opener_open urlparse_rejects url token w = (inr (redirect_url, filename), w1) ->
  Str.startswith filename "/" = true ->
  w_files w !! filename = None ->
  urlopen (Request redirect_url []) = inr resp ->
  header_is_number resp ->
  body_error resp = None ->
  (declared_length resp = Some 0 -> body resp = []) ->
  exists w',
    download_file opener_open urlopen urlparse_rejects invalid_literal url output_path token w
    = (inr (Summary filename wb (declared_length resp)
              (Z.of_nat (length (body resp)))), w')
    /\ w_files w' = <[filename := body resp]> (w_files w).
Proof.
  intros Hres Habs Hnone Hresp Hnum Heof Hzero.
  pose proof (path_join_absolute output_path filename Habs) as Hpath.
  assert (Hsize : found_size w (path_join output_path filename) = 0).
  { unfold found_size. by rewrite Hpath, Hnone. }
  destruct (fresh_run url output_path token _ _ _ _ resp Hres Hsize Hresp Hnum Hzero)
    as (w' & Hrun & Hf & _).
  rewrite Heof, Hpath in Hrun. rewrite Hpath in Hf. by exists w'.
Qed.

End Paths.

Section CompleteFile.

Variable opener_open : request -> exn + response.
Variable urlopen : request -> exn + response.
Variable urlparse_rejects : string -> option string.
Variable invalid_literal : string -> string.

(** C4, as the code has it: with a complete local file of [N > 0] bytes
    the engine compares nothing; it asks for the bytes from [N] on and
    goes by the answer.  An answer of status 206 with an empty body: the
    run returns, no byte is written, the file system is what it was, the
    count stays at [N].  A request that fails (a server answers a range
    that starts at the end of the file with status 416, which [urlopen]
    raises): the run ends with that error, and no file is opened or
    changed.  An answer of status 200: the file is truncated and holds
    what the second response delivers, all of the file again or the part
    that arrived before the stream broke. *)
Theorem download_file_already_complete
    (url output_path token redirect_url filename : string)
    (w w1 : world) (old : list Byte.byte) :
  let output_file := path_join output_path filename in
  let N := Z.of_nat (length old) in
  let run := download_file opener_open urlopen urlparse_rejects invalid_literal
               url output_path token w in
  resolve opener_open urlparse_rejects url token w = (inr (redirect_url, filename), w1) ->
  w_files w !! output_file = Some old ->
  0 < N ->
  (exists reqs,
     sent (w_log (snd run))
     = (sent (w_log w1) ++ Request redirect_url (range_header N) :: reqs)%list)
  /\ (forall resp,
        urlopen (Request redirect_url (range_header N)) = inr resp ->
        status resp = 206 ->
        body resp = [] ->
        body_error resp = None ->
        header_is_number resp ->
        fst run = inr (Summary output_file ab
                         ((fun L => L + N) <$> declared_length resp) N)
        /\ w_files (snd run) = w_files w
        /\ written output_file (w_log (snd run)) = written output_file (w_log w1))
  /\ (forall e,
        urlopen (Request redirect_url (range_header N)) = inl e ->
        fst run = inl e
        /\ w_files (snd run) = w_files w
        /\ opened (w_log (snd run)) = opened (w_log w))
  /\ (forall resp fresh,
        urlopen (Request redirect_url (range_header N)) = inr resp ->
        status resp = 200 ->
        urlopen (Request redirect_url []) = inr fresh ->
        header_is_number fresh ->
        (declared_length fresh = Some 0 -> body fresh = []) ->
        fst run = match body_error fresh with
                  | Some e => inl e
                  | None => inr (Summary output_file wb (declared_length fresh)
                                   (Z.of_nat (length (body fresh))))
                  end
        /\ w_files (snd run) = <[output_file := body fresh]> (w_files w)).
Proof.
  intros output_file N run Hres Hold HN. subst run.
  destruct (download_file_unfold opener_open urlopen urlparse_rejects invalid_literal
              url output_path token _ _ _ _ Hres) as (Hrun & Hf & Hs).
  fold output_file in Hrun, Hf, Hs.
  assert (Hsize : found_size w output_file = N) by (unfold found_size; by rewrite Hold).
  rewrite Hsize in Hrun.
  split; [|split; [|split]].
  - destruct (negotiate_asks_range urlopen redirect_url N
                (after_check output_path output_file w1) HN) as (reqs & Hreqs).
    exists reqs. rewrite Hrun, bind_run, <- Hs.
    destruct (negotiate _ _ _ _) as [[e|[n resp]] w2]; simpl in *; [done|].
    by rewrite stream_to_file_sent.
  - intros resp Hresp Hst Hbody Heof Hnum.
    destruct (nothing_to_append opener_open urlopen urlparse_rejects invalid_literal
                url output_path token redirect_url filename w w1 old resp
                Hres Hold HN Hresp Hst Hbody Heof Hnum) as (w' & Hdone & Hfiles & Hlog).
    fold output_file N in Hdone, Hlog. rewrite Hdone. simpl.
    split; [done|]. split; [done|].
    rewrite Hlog. clear. induction (w_log w1) as [|ev evs IH]; simpl.
    + by destruct (String.eqb output_file output_file).
    + destruct ev; simpl; try done. destruct (String.eqb path output_file); by rewrite ?IH.
  - intros e Hresp.
    erewrite bind_fail in Hrun by (by apply negotiate_fails).
    rewrite Hrun. simpl. split; [done|]. split; [exact Hf|].
    destruct (resolve_quiet opener_open urlparse_rejects url token w)
      as (_ & evs0 & Hl0 & Hq0).
    rewrite Hres in Hl0. simpl in Hl0.
    destruct (after_check_quiet output_path output_file w1) as (_ & evs1 & Hl1 & Hq1).
    rewrite opened_app, Hl1, Hl0, !opened_app, (quiet_opened _ Hq0),
      (quiet_opened _ Hq1). simpl. by rewrite !app_nil_r.
  - intros resp fresh Hresp Hst Hfresh Hnum Hzero.
    erewrite bind_ok in Hrun by (by eapply negotiate_200).
    cbv beta iota in Hrun.
    edestruct (stream_to_file_run invalid_literal filename output_file 0 fresh)
      as (w' & Hrun' & Hf'); [exact Hnum| |].
    { by rewrite expected_total_fresh. }
    rewrite Hrun' in Hrun. rewrite expected_total_fresh in Hrun.
    rewrite Hrun. simpl. split; [done|].
    rewrite Hf'. simpl. by rewrite Hf.
Qed.

End CompleteFile.

Section BadLength.

Variable opener_open : request -> exn + response.
Variable urlopen : request -> exn + response.
Variable urlparse_rejects : string -> option string.
Variable invalid_literal : string -> string.

Lemma bad_length_after_negotiation
    (url output_path token redirect_url filename text : string)
    (w w1 w2 : world) (n : Z) (resp : response) :
  let path := path_join output_path filename in
  resolve opener_open urlparse_rejects url token w = (inr (redirect_url, filename), w1) ->
  negotiate urlopen redirect_url (found_size w path) (after_check output_path path w1)
  = (inr (n, resp), w2) ->
  getheader resp "Content-Length" = Some text ->
  PyInt.int text = None ->
  let run := download_file opener_open urlopen urlparse_rejects
    invalid_literal url output_path token w in
  (exists msg, fst run = inl (ValueError msg))
  /\ w_files (snd run) = w_files w
  /\ opened (w_log (snd run)) = opened (w_log w).
Proof.
  intros path Hres Hneg Hcl Hint run. subst run.
  destruct (download_file_unfold opener_open urlopen urlparse_rejects invalid_literal
              url output_path token _ _ _ _ Hres) as (Hrun & Hf & _).
  fold path in Hrun, Hf.
  rewrite (bind_ok _ _ _ _ _ Hneg) in Hrun. cbv beta iota in Hrun.
  rewrite (stream_to_file_bad_header _ _ _ _ _ _ _ Hcl Hint) in Hrun.
  rewrite Hrun. simpl. split; [by eexists|].
  destruct (resolve_quiet opener_open urlparse_rejects url token w)
    as (_ & evs0 & Hl0 & Hq0).
  rewrite Hres in Hl0. simpl in Hl0.
  destruct (after_check_quiet output_path path w1) as (_ & evs1 & Hl1 & Hq1).
  destruct (negotiate_quiet urlopen redirect_url (found_size w path)
              (after_check output_path path w1)) as (Hf2 & evs2 & Hl2 & Hq2).
  rewrite Hneg in Hf2, Hl2. simpl in Hf2, Hl2.
  split; [congruence|].
  rewrite Hl2, Hl1, Hl0, !opened_app, (quiet_opened _ Hq0), (quiet_opened _ Hq1),
    (quiet_opened _ Hq2). simpl. by rewrite !app_nil_r.
Qed.

(** X4: a [Content-Length] that [int] refuses ends the run with a
    [ValueError] before the output file is opened, on each of the three
    ways to the response: no file changes, so a partial file survives
    even after the server ignored the range. *)
Theorem download_file_bad_length
    (url output_path token redirect_url filename text : string)
    (w w1 : world) (resp : response) :
  let path := path_join output_path filename in
  let run := download_file opener_open urlopen urlparse_rejects
    invalid_literal url output_path token w in
  let stopped :=
    (exists msg, fst run = inl (ValueError msg))
    /\ w_files (snd run) = w_files w
    /\ opened (w_log (snd run)) = opened (w_log w) in
  resolve opener_open urlparse_rejects url token w = (inr (redirect_url, filename), w1) ->
  getheader resp "Content-Length" = Some text ->
  PyInt.int text = None ->
  (found_size w path = 0 -> urlopen (Request redirect_url []) = inr resp -> stopped)
  /\ (0 < found_size w path ->
      urlopen (Request redirect_url (range_header (found_size w path))) = inr resp ->
      status resp = 206 -> stopped)
  /\ (forall first : response,
        0 < found_size w path ->
        urlopen (Request redirect_url (range_header (found_size w path))) = inr first ->
        status first = 200 ->
        urlopen (Request redirect_url []) = inr resp -> stopped).
Proof.
  intros path run stopped Hres Hcl Hint. subst stopped run.
  split; [|split].
  - intros Hsize Hresp.
    eapply (bad_length_after_negotiation url output_path token _ _ _ _ _ _ _ _
              Hres); [|exact Hcl|exact Hint].
    fold path. rewrite Hsize. by apply negotiate_fresh.
  - intros Hsize Hresp Hst.
    eapply (bad_length_after_negotiation url output_path token _ _ _ _ _ _ _ _
              Hres); [|exact Hcl|exact Hint].
    fold path. by apply negotiate_206.
  - intros first Hsize Hfirst Hst Hresp.
    eapply (bad_length_after_negotiation url output_path token _ _ _ _ _ _ _ _
              Hres); [|exact Hcl|exact Hint].
    fold path. by eapply negotiate_200.
Qed.

End BadLength.

Section Resumption.

Variable opener_open : request -> exn + response.
Variable urlparse_rejects : string -> option string.
Variable invalid_literal : string -> string.

(** X7: an interrupted download and the run after it.  The first run,
    from no file, breaks after the bytes [body first]; the second run
    finds them, asks for the rest from their length on, gets it with
    status 206, and leaves the file as the two bodies one after the
    other. *)
Theorem download_file_resumes_after_interruption
    (urlopen1 urlopen2 : request -> exn + response)
    (url output_path token redirect_url filename : string)
    (w w1 : world) (first rest : response) (e : exn) :
  let path := path_join output_path filename in
  resolve opener_open urlparse_rejects url token w = (inr (redirect_url, filename), w1) ->
  w_files w !! path = None ->
  urlopen1 (Request redirect_url []) = inr first ->
  header_is_number first ->
  declared_length first <> Some 0 ->
  body first <> [] ->
  body_error first = Some e ->
  urlopen2 (Request redirect_url (range_header (Z.of_nat (length (body first)))))
  = inr rest ->
  status rest = 206 ->
  header_is_number rest ->
  (forall L, declared_length rest = Some L -> 0 <= L) ->
  body_error rest = None ->
  exists (w' w'' : world) (s : summary),
    download_file opener_open urlopen1 urlparse_rejects invalid_literal url output_path token w
    = (inl e, w')
    /\ download_file opener_open urlopen2 urlparse_rejects invalid_literal url output_path token w'
       = (inr s, w'')
    /\ w_files w'' !! path = Some (body first ++ body rest)%list
    /\ s_file_mode s = ab
    /\ s_downloaded s = Z.of_nat (length (body first ++ body rest)).
Proof.
  intros path Hres Hnone Hfirst Hnum1 Hdecl1 Hbody1 Herr Hrest Hst Hnum2 Hdecl2 Heof.
  assert (Hsize : found_size w path = 0) by (unfold found_size; by rewrite Hnone).
  destruct (fresh_run opener_open urlopen1 urlparse_rejects invalid_literal url output_path token
              _ _ _ _ first Hres Hsize Hfirst Hnum1) as (w' & Hrun1 & Hf1 & _); [done|].
  fold path in Hrun1, Hf1. rewrite Herr in Hrun1.
  set (n := Z.of_nat (length (body first))) in *.
  assert (Hn : 0 < n) by (subst n; destruct (body first); [done | simpl; lia]).
  (* the second run resolves to the same target *)
  pose proof (resolve_any_world opener_open urlparse_rejects url token w w') as Hsame.
  rewrite Hres in Hsame. simpl in Hsame.
  destruct (resolve opener_open urlparse_rejects url token w') as [r2 w1'] eqn:Hres2.
  simpl in Hsame. subst r2.
  destruct (download_file_unfold opener_open urlopen2 urlparse_rejects invalid_literal
              url output_path token _ _ _ _ Hres2) as (Hrun2 & Hf2 & _).
  fold path in Hrun2, Hf2.
  assert (Hsize2 : found_size w' path = n).
  { unfold found_size. by rewrite Hf1, lookup_insert_eq. }
  rewrite Hsize2 in Hrun2.
  erewrite bind_ok in Hrun2 by (by apply negotiate_206).
  cbv beta iota in Hrun2.
  edestruct (stream_to_file_run invalid_literal filename path n rest) as (w'' & Hrun3 & Hf3);
    [exact Hnum2| |].
  { unfold expected_total. destruct (declared_length rest) as [L|] eqn:HL; [|done].
    simpl. destruct (Z.ltb_spec 0 n); [|lia]. rewrite Hst. simpl.
    specialize (Hdecl2 L eq_refl). intros [=]. lia. }
  rewrite Hrun3, Heof in Hrun2.
  eexists w', w'', _. split; [exact Hrun1|]. split; [exact Hrun2|]. simpl.
  split.
  - rewrite Hf3. simpl. rewrite Hf2, Hf1, !lookup_insert_eq.
    unfold starting_content. by destruct (Z.ltb_spec 0 n); [|lia].
  - split.
    + unfold mode_for. by destruct (Z.ltb_spec 0 n); [|lia].
    + rewrite length_app. subst n. lia.
Qed.

End Resumption.

(** ** [main]: the token and the outcome *)

Section MainFacts.

Variable opener_open : request -> exn + response.
Variable urlopen : request -> exn + response.
Variable urlparse_rejects : string -> option string.
Variable invalid_literal : string -> string.
Variable typed_token : string.
Variable TOKEN_FILE : string.

Lemma stored_token_readable (t : string) (w : world) :
  stored_token TOKEN_FILE w = Some t -> token_readable TOKEN_FILE w = true.
Proof.
  unfold stored_token, token_readable.
  destruct (token_bytes TOKEN_FILE w) as [data|]; [|done].
  by destruct (Utf8.well_formed (string_of_list_byte data)).
Qed.



(** X11: from the identifier to the file.  With a stored token, a
    numeric identifier, a resolution that yields a target, and no local
    file, [main] asks the base endpoint followed by the identifier, then
    the content URL, returns normally, and exactly the one file is
    written: it holds the body. *)
Theorem main_end_to_end (id args_output_path token redirect_url filename : string)
    (w w1 : world) (resp : response) :
  let output_file := path_join args_output_path filename in
  stored_token TOKEN_FILE w = Some token ->
  Str.truthy token = true ->
  Str.isdigit id = true ->
  resolve opener_open urlparse_rejects (BASE_URL +:+ id) token w
  = (inr (redirect_url, filename), w1) ->
  w_files w !! output_file = None ->
  urlopen (Request redirect_url []) = inr resp ->
  header_is_number resp ->
  body_error resp = None ->
  (declared_length resp = Some 0 -> body resp = []) ->
  exists w',
    main opener_open urlopen urlparse_rejects invalid_literal typed_token TOKEN_FILE
      id args_output_path w
    = (inr tt, w')
    /\ w_files w' = <[output_file := body resp]> (w_files w)
    /\ sent (w_log w')
       = (sent (w_log w)
          ++ [Request (BASE_URL +:+ id) (credentials token);
              Request redirect_url []])%list.
Proof.
  intros output_file Htok Htruthy Hid Hres Hnone Hresp Hnum Heof Hzero.
  assert (Hsize : found_size w output_file = 0).
  { unfold found_size. by rewrite Hnone. }
  destruct (fresh_run opener_open urlopen urlparse_rejects invalid_literal _
              args_output_path token _ _ _ _ resp Hres Hsize Hresp Hnum Hzero)
    as (w' & Hrun & Hf & Hs).
  fold output_file in Hrun, Hf. rewrite Heof in Hrun.
  exists w'.
  rewrite (main_unfold _ _ _ _ _ _ _ _ _ (stored_token_readable token w Htok)).
  unfold try_except, session_token, session_world.
  rewrite Htok, Htruthy.
  assert (Hurl : normalize_url id = BASE_URL +:+ id)
    by (unfold normalize_url; by rewrite Hid).
  rewrite Hurl. by rewrite (bind_ok _ _ _ _ _ Hrun).
Qed.

End MainFacts.

(** ** Concrete runs for the further properties *)

Lemma download_file_resume_refused_witness :
  exists w',
    download_file resolver_ok refuses_range accepts_all quoted_literal
      model_id_url "models" "secret"
      partial_world
    = (inl (RuntimeError "Unexpected response status: 204"), w')
    /\ w_files w' = w_files partial_world.
Proof.
  destruct (download_file_resume_refused resolver_ok refuses_range accepts_all quoted_literal
              model_id_url "models" "secret" mock_location "model.safetensors"
              partial_world
              (snd (resolve resolver_ok accepts_all model_id_url "secret" partial_world))
              (zeros 1000) (status_only 204))
    as (w' & Hrun & Hfiles & _); [by_run..|].
  exists w'. split; [|exact Hfiles].
  rewrite Hrun. vm_compute. reflexivity.
Defined.

Lemma download_file_fresh_witness :
  exists w',
    download_file resolver_ok sends_eight accepts_all quoted_literal model_id_url "models" "secret"
      token_world
    = (inr (Summary model_path wb (Some 8) 8), w')
    /\ w_files w' !! model_path = Some (ones 8).
Proof.
  destruct (download_file_fresh resolver_ok sends_eight accepts_all quoted_literal
              model_id_url "models" "secret" mock_location "model.safetensors"
              token_world
              (snd (resolve resolver_ok accepts_all model_id_url "secret" token_world))
              (with_length 200 "8" (ones 8)))
    as (w' & Hrun & Hfiles & _); [by_run..|].
  exists w'. split.
  - rewrite Hrun. vm_compute. reflexivity.
  - rewrite Hfiles. vm_compute. reflexivity.
Defined.

Lemma download_file_bad_length_witness :
  (exists msg,
     fst (download_file resolver_ok garbled_length accepts_all quoted_literal model_id_url "models"
            "secret" partial_world)
     = inl (ValueError msg))
  /\ w_files (snd (download_file resolver_ok garbled_length accepts_all quoted_literal
                     model_id_url "models" "secret" partial_world))
     = w_files partial_world.
Proof.
  destruct (proj2 (proj2 (download_file_bad_length resolver_ok garbled_length accepts_all
    quoted_literal
              model_id_url "models" "secret" mock_location "model.safetensors" "15oo"
              partial_world
              (snd (resolve resolver_ok accepts_all model_id_url "secret" partial_world))
              (with_length 200 "15oo" (ones 1500))
              ltac:(by_run) ltac:(by_run) ltac:(by_run)))
            (with_length 200 "1500" (ones 1500)))
    as (Hfst & Hfiles & _); [by_run..|].
  split; [exact Hfst | rewrite Hfiles; reflexivity].
Defined.

Lemma download_file_interrupted_witness :
  exists w',
    download_file resolver_ok breaks_after_five accepts_all quoted_literal
      model_id_url "models" "secret"
      token_world
    = (inl connection_reset, w')
    /\ w_files w' !! model_path = Some (ones 5).
Proof.
  destruct (download_file_interrupted resolver_ok breaks_after_five accepts_all quoted_literal
              model_id_url "models" "secret" mock_location "model.safetensors"
              token_world
              (snd (resolve resolver_ok accepts_all model_id_url "secret" token_world))
              (Response 200 (one_header "Content-Length" "8") (ones 5)
                 (Some connection_reset))
              connection_reset)
    as (w' & Hrun & Hfile & _); [by_run..|].
  exists w'. split; [exact Hrun|].
  replace model_path with (path_join "models" "model.safetensors")
    by (vm_compute; reflexivity).
  rewrite Hfile. vm_compute. reflexivity.
Defined.

Lemma download_file_resumes_after_interruption_witness :
  exists (w' w'' : world) (s : summary),
    download_file resolver_ok breaks_after_five accepts_all quoted_literal
      model_id_url "models" "secret"
      token_world = (inl connection_reset, w')
    /\ download_file resolver_ok sends_the_rest accepts_all quoted_literal
      model_id_url "models" "secret"
         w' = (inr s, w'')
    /\ w_files w'' !! model_path = Some (ones 5 ++ zeros 3)%list
    /\ s_downloaded s = 8.
Proof.
  destruct (download_file_resumes_after_interruption resolver_ok accepts_all quoted_literal
              breaks_after_five sends_the_rest
              model_id_url "models" "secret" mock_location "model.safetensors"
              token_world
              (snd (resolve resolver_ok accepts_all model_id_url "secret" token_world))
              (Response 200 (one_header "Content-Length" "8") (ones 5)
                 (Some connection_reset))
              (with_length 206 "3" (zeros 3))
              connection_reset)
    as (w' & w'' & s & Hrun1 & Hrun2 & Hfile & _ & Hcount); [by_run..|].
  exists w', w'', s. split; [exact Hrun1|]. split; [exact Hrun2|].
  split.
  - replace model_path with (path_join "models" "model.safetensors")
      by (vm_compute; reflexivity).
    rewrite Hfile. vm_compute. reflexivity.
  - rewrite Hcount. vm_compute. reflexivity.
Defined.

Lemma download_file_zero_length_witness :
  exists w',
    download_file resolver_ok declares_nothing accepts_all quoted_literal
      model_id_url "models" "secret"
      token_world
    = (inl (ZeroDivisionError "division by zero"), w')
    /\ w_files w' !! model_path = Some (ones 1).
Proof.
  destruct (download_file_zero_length resolver_ok declares_nothing accepts_all quoted_literal
              model_id_url "models" "secret" mock_location "model.safetensors"
              token_world
              (snd (resolve resolver_ok accepts_all model_id_url "secret" token_world))
              (with_length 200 "0" (ones 1)))
    as (w' & Hrun & Hfile & _); [by_run..|].
  exists w'. split; [exact Hrun|].
  replace model_path with (path_join "models" "model.safetensors")
    by (vm_compute; reflexivity).
  rewrite Hfile. vm_compute. reflexivity.
Defined.

Lemma download_file_already_complete_witness :
  (fst (download_file resolver_ok nothing_left accepts_all quoted_literal
          model_id_url "models" "secret" complete_world)
   = inr (Summary model_path ab (Some 1500) 1500)
   /\ w_files (snd (download_file resolver_ok nothing_left accepts_all quoted_literal
                      model_id_url "models" "secret" complete_world))
      = w_files complete_world)
  /\ (fst (download_file resolver_ok range_not_satisfiable accepts_all quoted_literal
             model_id_url "models" "secret" complete_world)
      = inl (URLError "HTTP Error 416: Requested Range Not Satisfiable")
      /\ w_files (snd (download_file resolver_ok range_not_satisfiable accepts_all
                         quoted_literal model_id_url "models" "secret" complete_world))
         = w_files complete_world).
Proof.
  split.
  - destruct (download_file_already_complete resolver_ok nothing_left accepts_all
                quoted_literal model_id_url "models" "secret" mock_location
                "model.safetensors" complete_world
                (snd (resolve resolver_ok accepts_all model_id_url "secret" complete_world))
                (ones 1500))
      as (_ & Hempty & _); [by_run..|].
    destruct (Hempty (with_length 206 "0" [])) as (Hrun & Hfiles & _); [by_run..|].
    split; [|exact Hfiles]. rewrite Hrun. vm_compute. reflexivity.
  - destruct (download_file_already_complete resolver_ok range_not_satisfiable accepts_all
                quoted_literal model_id_url "models" "secret" mock_location
                "model.safetensors" complete_world
                (snd (resolve resolver_ok accepts_all model_id_url "secret" complete_world))
                (ones 1500))
      as (_ & _ & Hfails & _); [by_run..|].
    destruct (Hfails (URLError "HTTP Error 416: Requested Range Not Satisfiable"))
      as (Hrun & Hfiles & _); [by_run|].
    split; [exact Hrun | exact Hfiles].
Defined.

(** C4 as the specification words it fails: the engine does not detect
    that the file is complete, and what happens is the server's choice.
    A server that refuses the range (status 416) makes the run end with
    that error; a server that ignores the range makes the engine empty
    the complete file and write it anew, all 1500 bytes of it, and when
    that transfer breaks the file is left with the five bytes that
    arrived. *)
Lemma download_file_complete_file_not_detected :
  w_files complete_world !! model_path = Some (ones 1500)
  /\ fst (download_file resolver_ok range_not_satisfiable accepts_all quoted_literal
            model_id_url "models" "secret" complete_world)
     = inl (URLError "HTTP Error 416: Requested Range Not Satisfiable")
  /\ opened (w_log (snd (download_file resolver_ok ignores_range accepts_all quoted_literal
                           model_id_url "models" "secret" complete_world)))
     = [(model_path, wb)]
  /\ written model_path
       (w_log (snd (download_file resolver_ok ignores_range accepts_all quoted_literal
                      model_id_url "models" "secret" complete_world)))
     = [ones 1500]
  /\ fst (download_file resolver_ok restarts_and_breaks accepts_all quoted_literal
            model_id_url "models" "secret" complete_world)
     = inl (OSError "[Errno 104] Connection reset by peer")
  /\ w_files (snd (download_file resolver_ok restarts_and_breaks accepts_all quoted_literal
                     model_id_url "models" "secret" complete_world)) !! model_path
     = Some (ones 5).
Proof. repeat split; vm_compute; reflexivity. Qed.

Lemma download_file_absolute_name_witness :
  exists w',
    download_file resolver_absolute sends_eight accepts_all quoted_literal
      model_id_url "models" "secret"
      token_world
    = (inr (Summary "/tmp/model.bin" wb (Some 8) 8), w')
    /\ w_files w' !! "/tmp/model.bin" = Some (ones 8)
    /\ w_files w' !! "models/tmp/model.bin" = None.
Proof.
  destruct (download_file_absolute_name resolver_absolute sends_eight accepts_all quoted_literal
              model_id_url "models" "secret" absolute_location "/tmp/model.bin"
              token_world
              (snd (resolve resolver_absolute accepts_all model_id_url "secret" token_world))
              (with_length 200 "8" (ones 8)))
    as (w' & Hrun & Hfiles); [by_run..|].
  exists w'. split; [|split].
  - rewrite Hrun. vm_compute. reflexivity.
  - rewrite Hfiles. vm_compute. reflexivity.
  - rewrite Hfiles. vm_compute. reflexivity.
Defined.

Lemma main_end_to_end_witness :
  exists w',
    main resolver_ok sends_eight accepts_all quoted_literal "typed" sample_token_file
      "46846" "models" token_world
    = (inr tt, w')
    /\ w_files w' = <[model_path := ones 8]> (w_files token_world)
    /\ sent (w_log w')
       = [Request model_id_url (credentials "secret"); Request mock_location []].
Proof.
  destruct (main_end_to_end resolver_ok sends_eight accepts_all quoted_literal
    "typed" sample_token_file
              "46846" "models" "secret" mock_location "model.safetensors"
              token_world
              (snd (resolve resolver_ok accepts_all model_id_url "secret" token_world))
              (with_length 200 "8" (ones 8)))
    as (w' & Hrun & Hfiles & Hsent); [by_run..|].
  exists w'. split; [rewrite Hrun; reflexivity|]. split.
  - rewrite Hfiles. vm_compute. reflexivity.
  - rewrite Hsent. vm_compute. reflexivity.
Defined.

(** The token file is a file like another: a redirect that names it
    makes the download resume it, and the bytes of the body end up
    behind the token. *)
Example download_reaches_token_file :
  token_bytes sample_token_file
    (snd (main resolver_token_file sends_the_rest accepts_all quoted_literal "typed"
            sample_token_file "46846" "models" token_world))
  = Some (bytes_of "secret" ++ zeros 3)%list.
Proof. vm_compute. reflexivity. Qed.

(** ** The resolver has no side effect *)

Section ResolverPurity.

Variable opener_open : request -> exn + response.
Variable urlparse_rejects : string -> option string.
Variable invalid_literal : string -> string.

(** X13: the resolving part of [download_file] sends exactly one request,
    the one with the credentials; it opens no file and changes no file,
    the token file no more than another; it asks nothing; and what it
    returns, target or error, does not depend on the local state. *)
Theorem resolve_is_pure (url token : string) (w other : world) :
  let run := resolve opener_open urlparse_rejects url token w in
  w_files (snd run) = w_files w
  /\ (forall TOKEN_FILE, token_bytes TOKEN_FILE (snd run) = token_bytes TOKEN_FILE w)
  /\ sent (w_log (snd run)) = (sent (w_log w) ++ [Request url (credentials token)])%list
  /\ opened (w_log (snd run)) = opened (w_log w)
  /\ prompts (w_log (snd run)) = prompts (w_log w)
  /\ fst run = fst (resolve opener_open urlparse_rejects url token other).
Proof.
  cbv zeta.
  destruct (resolve_frame opener_open urlparse_rejects url token w)
    as (Hf & evs & Hl & Hevs).
  destruct (resolve_quiet opener_open urlparse_rejects url token w)
    as (_ & quiet & Hq & Hquiet).
  split; [exact Hf|]. split; [intros TOKEN_FILE; unfold token_bytes; by rewrite Hf|].
  split.
  { rewrite Hl, sent_app. simpl. by rewrite Hevs. }
  split.
  { by rewrite Hq, opened_app, (quiet_opened _ Hquiet), app_nil_r. }
  split.
  { assert (Hnone : prompts quiet = []).
    { apply no_input_prompts.
      eapply Forall_impl; [exact Hquiet | apply quiet_not_input]. }
    by rewrite Hq, prompts_app, Hnone, app_nil_r. }
  apply resolve_any_world.
Qed.

End ResolverPurity.
